(** * autodev-codebase: restart controller and tag-capture processor

    A shallow embedding of two parts of the code base:

    - [ConfigManager]: the class [CodeIndexConfigManager] of
      [src/code-index/config-manager.ts], with the decision procedure
      [doesConfigChangeRequireRestart];
    - [TreeSitter]: the definition listing of the tree-sitter front end
      ([processCaptures], [parseFile], [parseSourceCodeDefinitionsForFile],
      [parseSourceCodeForDefinitionsTopLevel] and [separateFiles]).

    JavaScript values are modelled as follows: [string | undefined] is
    [option string], line numbers and table dimensions are [Z], the optional
    number of the openai-compatible dimension is a [JsNumber] ([undefined],
    [null], NaN, an infinity or a finite value), a string is the sequence of its UTF-8 bytes, a
    rejected promise or a thrown exception is the [Throw] outcome. *)

From Stdlib Require Import Ascii Qcanon.
From stdpp Require Import base option list strings gmap pretty sorting.

Local Open Scope Z_scope.

(** ** JavaScript helpers shared by both parts *)

(** Truthiness of a [string | undefined] value: defined and not empty. *)
Definition truthy (s : option string) : bool :=
  match s with
  | Some (String _ _) => true
  | _ => false
  end.

(** [a !== b] on values with decidable equality. *)
Definition strict_ne {A} `{EqDecision A} (a b : A) : bool := bool_decide (a ≠ b).

(** A value of type [number | null | undefined], as the optional field
    [modelDimension?: number] holds one at run time. A number is NaN, an
    infinity, or finite; a finite number is given by its value, a rational
    in lowest terms, so that [0] and [-0], which [!==] does not tell apart,
    are one value. *)
Inductive JsNumber :=
  | JsUndefined
  | JsNull
  | JsNum (value : Qc)
  | JsInfinity (negative : bool)
  | JsNaN.

#[global] Instance JsNumber_eq_dec : EqDecision JsNumber.
Proof. solve_decision. Defined.

(** [a !== b] on such values: NaN is different from every value, itself
    included; [null], [undefined], the infinities and the finite numbers are
    different from each other and equal to themselves. *)
Definition js_strict_ne (a b : JsNumber) : bool :=
  match a, b with
  | JsNaN, _ | _, JsNaN => true
  | _, _ => bool_decide (a ≠ b)
  end.

(** * Part I: the configuration / restart controller *)

Module ConfigManager.

(** [EmbedderProvider] of [interfaces/manager]: the three providers that
    [_loadAndSetConfiguration] and [isConfigured] distinguish. *)
Inductive EmbedderProvider := openai | ollama | openai_compatible.

#[global] Instance EmbedderProvider_eq_dec : EqDecision EmbedderProvider.
Proof. solve_decision. Defined.

(** The fields of [ApiHandlerOptions] that the manager writes and reads. *)
Module ApiHandlerOptions.
Record t := mk {
    apiKey : option string;
    openAiNativeApiKey : option string;
    ollamaBaseUrl : option string
  }.
End ApiHandlerOptions.

(** [{ baseUrl: string; apiKey: string; modelDimension?: number }]. *)
Module OpenAiCompatibleOptions.
Record t := mk {
    baseUrl : string;
    apiKey : string;
    modelDimension : JsNumber
  }.
End OpenAiCompatibleOptions.

(** [ConfigSnapshot]. Every field is optional in the model because
    [doesConfigChangeRequireRestart] reads each of them through [?.] and
    [??]; the dimension is read through [?.] alone, so that [null] and
    [undefined] are kept apart there. *)
Module Snapshot.
Record t := mk {
    enabled : option bool;
    configured : option bool;
    embedderProvider : option EmbedderProvider;
    modelId : option string;
    openAiKey : option string;
    ollamaBaseUrl : option string;
    openAiCompatibleBaseUrl : option string;
    openAiCompatibleApiKey : option string;
    openAiCompatibleModelDimension : JsNumber;
    qdrantUrl : option string;
    qdrantApiKey : option string
  }.
End Snapshot.

(** The private fields of [CodeIndexConfigManager] ([searchMinScore], a
    floating-point threshold, is read by none of the methods below). *)
Record CodeIndexConfigManager := mkManager {
  isEnabled : bool;
  embedderProvider : EmbedderProvider;
  modelId : option string;
  openAiOptions : option ApiHandlerOptions.t;
  ollamaOptions : option ApiHandlerOptions.t;
  openAiCompatibleOptions : option OpenAiCompatibleOptions.t;
  qdrantUrl : option string;
  qdrantApiKey : option string
}.

(** [isConfigured()]. *)
Definition isConfigured (this : CodeIndexConfigManager) : bool :=
  match embedderProvider this with
  | openai =>
      let openAiKey := openAiOptions this ≫= ApiHandlerOptions.apiKey in
      truthy openAiKey && truthy (qdrantUrl this)
  | ollama =>
      let ollamaBaseUrl := ollamaOptions this ≫= ApiHandlerOptions.ollamaBaseUrl in
      truthy ollamaBaseUrl && truthy (qdrantUrl this)
  | openai_compatible =>
      let baseUrl := OpenAiCompatibleOptions.baseUrl <$> openAiCompatibleOptions this in
      let apiKey := OpenAiCompatibleOptions.apiKey <$> openAiCompatibleOptions this in
      truthy baseUrl && truthy apiKey && truthy (qdrantUrl this)
  end.

(** [this.openAiCompatibleOptions?.modelDimension]. *)
Definition currentModelDimension (this : CodeIndexConfigManager) : JsNumber :=
  from_option OpenAiCompatibleOptions.modelDimension JsUndefined
    (openAiCompatibleOptions this).

(** The manager is openai-compatible and its dimension is NaN. *)
Definition hasNaNDimension (this : CodeIndexConfigManager) : bool :=
  bool_decide (embedderProvider this = openai_compatible)
  && bool_decide (currentModelDimension this = JsNaN).

(** The snapshot that [loadConfiguration] takes of the manager before it
    reloads ([previousConfigSnapshot]). *)
Definition previousConfigSnapshot (this : CodeIndexConfigManager) : Snapshot.t :=
  {| Snapshot.enabled := Some (isEnabled this);
     Snapshot.configured := Some (isConfigured this);
     Snapshot.embedderProvider := Some (embedderProvider this);
     Snapshot.modelId := modelId this;
     Snapshot.openAiKey :=
       Some (default "" (openAiOptions this ≫= ApiHandlerOptions.apiKey));
     Snapshot.ollamaBaseUrl :=
       Some (default "" (ollamaOptions this ≫= ApiHandlerOptions.ollamaBaseUrl));
     Snapshot.openAiCompatibleBaseUrl :=
       Some (default "" (OpenAiCompatibleOptions.baseUrl <$> openAiCompatibleOptions this));
     Snapshot.openAiCompatibleApiKey :=
       Some (default "" (OpenAiCompatibleOptions.apiKey <$> openAiCompatibleOptions this));
     Snapshot.openAiCompatibleModelDimension := currentModelDimension this;
     Snapshot.qdrantUrl := Some (default "" (qdrantUrl this));
     Snapshot.qdrantApiKey := Some (default "" (qdrantApiKey this)) |}.

Section Controller.

  (** [getDefaultModelId] and [getModelDimension] come from
      [shared/embeddingModels], a static table that is taken as given. *)
Variable getDefaultModelId : EmbedderProvider → string.
Variable getModelDimension : EmbedderProvider → string → option Z.

  (** [_hasVectorDimensionChanged(prevProvider, prevModelId)]. *)
Definition _hasVectorDimensionChanged (this : CodeIndexConfigManager)
      (prevProvider : EmbedderProvider) (prevModelId : option string) : bool :=
    let currentProvider := embedderProvider this in
    let currentModelId := default (getDefaultModelId currentProvider) (modelId this) in
    let resolvedPrevModelId := default (getDefaultModelId prevProvider) prevModelId in
    if bool_decide (prevProvider = currentProvider)
       && bool_decide (resolvedPrevModelId = currentModelId)
    then false
    else
      let prevDimension := getModelDimension prevProvider resolvedPrevModelId in
      let currentDimension := getModelDimension currentProvider currentModelId in
      match prevDimension, currentDimension with
      | Some p, Some c => strict_ne p c
      | _, _ => true
      end.

  (** The authentication and vector-store comparisons of step 4, after the
      provider and dimension checks. *)
Definition credentialsChanged (this : CodeIndexConfigManager)
      (prev : option Snapshot.t) : bool :=
    let prevOpenAiKey := default "" (prev ≫= Snapshot.openAiKey) in
    let prevOllamaBaseUrl := default "" (prev ≫= Snapshot.ollamaBaseUrl) in
    let prevOpenAiCompatibleBaseUrl :=
      default "" (prev ≫= Snapshot.openAiCompatibleBaseUrl) in
    let prevOpenAiCompatibleApiKey :=
      default "" (prev ≫= Snapshot.openAiCompatibleApiKey) in
    let prevOpenAiCompatibleModelDimension :=
      from_option Snapshot.openAiCompatibleModelDimension JsUndefined prev in
    let prevQdrantUrl := default "" (prev ≫= Snapshot.qdrantUrl) in
    let prevQdrantApiKey := default "" (prev ≫= Snapshot.qdrantApiKey) in
    if bool_decide (embedderProvider this = openai)
       && strict_ne prevOpenAiKey
            (default "" (openAiOptions this ≫= ApiHandlerOptions.apiKey))
    then true
    else if bool_decide (embedderProvider this = ollama)
       && strict_ne prevOllamaBaseUrl
            (default "" (ollamaOptions this ≫= ApiHandlerOptions.ollamaBaseUrl))
    then true
    else if bool_decide (embedderProvider this = openai_compatible)
       && (strict_ne prevOpenAiCompatibleBaseUrl
             (default "" (OpenAiCompatibleOptions.baseUrl <$> openAiCompatibleOptions this))
           || strict_ne prevOpenAiCompatibleApiKey
                (default "" (OpenAiCompatibleOptions.apiKey <$> openAiCompatibleOptions this))
           || js_strict_ne prevOpenAiCompatibleModelDimension
                (currentModelDimension this))
    then true
    else
      let currentQdrantUrl := default "" (qdrantUrl this) in
      let currentQdrantApiKey := default "" (qdrantApiKey this) in
      strict_ne prevQdrantUrl currentQdrantUrl
      || strict_ne prevQdrantApiKey currentQdrantApiKey.

  (** [doesConfigChangeRequireRestart(prev)]: the early returns of the
      source become the branches of a conditional, in the same order. *)
Definition doesConfigChangeRequireRestart (this : CodeIndexConfigManager)
      (prev : option Snapshot.t) : bool :=
    let nowConfigured := isConfigured this in
    let prevEnabled := default false (prev ≫= Snapshot.enabled) in
    let prevConfigured := default false (prev ≫= Snapshot.configured) in
    let prevProvider := default openai (prev ≫= Snapshot.embedderProvider) in
    let prevModelId := prev ≫= Snapshot.modelId in
    (* 1. from disabled/unconfigured to enabled and configured *)
    if (negb prevEnabled || negb prevConfigured) && isEnabled this && nowConfigured
    then true
    (* 2. was disabled and still is *)
    else if negb prevEnabled && negb (isEnabled this) then false
    (* 3. was not ready and is not ready *)
    else if negb prevConfigured && negb nowConfigured then false
    (* 4. changes in the relevant settings *)
    else if isEnabled this || prevEnabled then
      if strict_ne prevProvider (embedderProvider this) then true
      else if _hasVectorDimensionChanged this prevProvider prevModelId then true
      else credentialsChanged this prev
    else false.

End Controller.

(** ** Sample configurations

    A small model table (the ollama entry is the one of scenario S5 of the
    specification) and three managers that the examples below evaluate. *)

Definition sampleDefaultModelId (p : EmbedderProvider) : string :=
  match p with
  | ollama => "nomic-embed-text"
  | _ => "text-embedding-3-small"
  end.

Definition sampleModelDimension (p : EmbedderProvider) (m : string) : option Z :=
  match p with
  | ollama => if bool_decide (m = "nomic-embed-text") then Some 768 else None
  | openai => if bool_decide (m = "text-embedding-3-small") then Some 1536 else None
  | openai_compatible => None
  end.

(** Ollama with its default model, enabled and configured. *)
Definition ollamaManager : CodeIndexConfigManager :=
  {| isEnabled := true; embedderProvider := ollama;
     modelId := Some "nomic-embed-text";
     openAiOptions := None;
     ollamaOptions :=
       Some (ApiHandlerOptions.mk None None (Some "http://localhost:11434"));
     openAiCompatibleOptions := None;
     qdrantUrl := Some "http://localhost:6333"; qdrantApiKey := Some "" |}.

(** The same manager after the model was set to one the table does not know. *)
Definition customModelManager : CodeIndexConfigManager :=
  {| isEnabled := true; embedderProvider := ollama;
     modelId := Some "custom-embed";
     openAiOptions := None;
     ollamaOptions :=
       Some (ApiHandlerOptions.mk None None (Some "http://localhost:11434"));
     openAiCompatibleOptions := None;
     qdrantUrl := Some "http://localhost:6333"; qdrantApiKey := Some "" |}.

(** An openai-compatible endpoint with an explicit dimension. *)
Definition compatibleManager : CodeIndexConfigManager :=
  {| isEnabled := true; embedderProvider := openai_compatible;
     modelId := Some "custom-embed";
     openAiOptions := None;
     ollamaOptions := None;
     openAiCompatibleOptions :=
       Some (OpenAiCompatibleOptions.mk "http://localhost:8080/v1" "secret"
               (JsNum (Qc_of_Z 1024)));
     qdrantUrl := Some "http://localhost:6333"; qdrantApiKey := Some "" |}.


(** Enabled, but without an API key: openai, not configured. *)
Definition unconfiguredOpenAiManager : CodeIndexConfigManager :=
  {| isEnabled := true; embedderProvider := openai;
     modelId := None;
     openAiOptions := Some (ApiHandlerOptions.mk None None None);
     ollamaOptions := None;
     openAiCompatibleOptions := None;
     qdrantUrl := Some "http://localhost:6333"; qdrantApiKey := Some "" |}.

(** Enabled, ollama with an unknown model and no base URL: not configured. *)
Definition unconfiguredOllamaManager : CodeIndexConfigManager :=
  {| isEnabled := true; embedderProvider := ollama;
     modelId := Some "custom-embed";
     openAiOptions := None;
     ollamaOptions := Some (ApiHandlerOptions.mk None None None);
     openAiCompatibleOptions := None;
     qdrantUrl := Some "http://localhost:6333"; qdrantApiKey := Some "" |}.

(** ** Loading the configuration *)

(** [config.embedder] of [interfaces/config], as [_loadAndSetConfiguration]
    reads it: a provider tag with the fields read for that provider, each
    with the type of the manager field it is assigned to. *)
Module EmbedderConfig.
Inductive t :=
  | OpenAi (model : option string) (apiKey : option string)
  | Ollama (model : option string) (baseUrl : option string)
  | OpenAiCompatible (model : option string) (baseUrl apiKey : string)
      (dimension : JsNumber).

Definition provider (e : t) : EmbedderProvider :=
  match e with
  | OpenAi _ _ => openai
  | Ollama _ _ => ollama
  | OpenAiCompatible _ _ _ _ => openai_compatible
  end.

Definition model (e : t) : option string :=
  match e with
  | OpenAi m _ | Ollama m _ | OpenAiCompatible m _ _ _ => m
  end.

(** The credentials and endpoint that are compared for the provider: the
    key of openai, the base URL of ollama, base URL, key and dimension of
    openai-compatible; an absent string counts as the empty one. *)
Definition credentials (e : t) : string * string * JsNumber :=
  match e with
  | OpenAi _ k => (default "" k, "", JsUndefined)
  | Ollama _ u => (default "" u, "", JsUndefined)
  | OpenAiCompatible _ u k d => (u, k, d)
  end.

(** The same embedder with another model. *)
Definition withModel (e : t) (m : option string) : t :=
  match e with
  | OpenAi _ k => OpenAi m k
  | Ollama _ u => Ollama m u
  | OpenAiCompatible _ u k d => OpenAiCompatible m u k d
  end.
End EmbedderConfig.

(** [CodeIndexConfig], without the floating-point [searchMinScore]. *)
Module CodeIndexConfig.
Record t := mk {
  isEnabled : bool;
  embedder : EmbedderConfig.t;
  qdrantUrl : option string;
  qdrantApiKey : option string
}.

Definition withModel (c : t) (m : option string) : t :=
  mk (isEnabled c) (EmbedderConfig.withModel (embedder c) m)
     (qdrantUrl c) (qdrantApiKey c).

Definition withEnabled (c : t) (b : bool) : t :=
  mk b (embedder c) (qdrantUrl c) (qdrantApiKey c).

Definition withQdrant (c : t) (url key : option string) : t :=
  mk (isEnabled c) (embedder c) url key.

Definition withEmbedder (c : t) (e : EmbedderConfig.t) : t :=
  mk (isEnabled c) e (qdrantUrl c) (qdrantApiKey c).
End CodeIndexConfig.

(** The manager that the constructor leaves: the field initialisers. *)
Definition newManager : CodeIndexConfigManager :=
  {| isEnabled := false; embedderProvider := openai; modelId := None;
     openAiOptions := None; ollamaOptions := None;
     openAiCompatibleOptions := None;
     qdrantUrl := Some "http://localhost:6333"; qdrantApiKey := None |}.

(** [_loadAndSetConfiguration()], given the configuration that the provider
    answers with; [initialize()] is this method. *)
Definition _loadAndSetConfiguration (config : CodeIndexConfig.t)
    (this : CodeIndexConfigManager) : CodeIndexConfigManager :=
  let url := Some (default "http://localhost:6333" (CodeIndexConfig.qdrantUrl config)) in
  let key := Some (default "" (CodeIndexConfig.qdrantApiKey config)) in
  match CodeIndexConfig.embedder config with
  | EmbedderConfig.OpenAi model apiKey =>
      {| isEnabled := CodeIndexConfig.isEnabled config;
         embedderProvider := openai; modelId := model;
         openAiOptions := Some (ApiHandlerOptions.mk apiKey apiKey None);
         ollamaOptions := None; openAiCompatibleOptions := None;
         qdrantUrl := url; qdrantApiKey := key |}
  | EmbedderConfig.Ollama model baseUrl =>
      {| isEnabled := CodeIndexConfig.isEnabled config;
         embedderProvider := ollama; modelId := model;
         openAiOptions := None;
         ollamaOptions := Some (ApiHandlerOptions.mk None None baseUrl);
         openAiCompatibleOptions := None;
         qdrantUrl := url; qdrantApiKey := key |}
  | EmbedderConfig.OpenAiCompatible model baseUrl apiKey dimension =>
      {| isEnabled := CodeIndexConfig.isEnabled config;
         embedderProvider := openai_compatible; modelId := model;
         openAiOptions := None; ollamaOptions := None;
         openAiCompatibleOptions :=
           Some (OpenAiCompatibleOptions.mk baseUrl apiKey dimension);
         qdrantUrl := url; qdrantApiKey := key |}
  end.

(** What [loadConfiguration()] returns; the other fields of [currentConfig]
    are the fields of the manager after the call. *)
Record LoadResult := mkLoadResult {
  configSnapshot : Snapshot.t;
  currentIsConfigured : bool;
  requiresRestart : bool
}.

Section Loading.

Variable getDefaultModelId : EmbedderProvider → string.
Variable getModelDimension : EmbedderProvider → string → option Z.

(** [loadConfiguration()]: the manager after the call, and the result. *)
Definition loadConfiguration (config : CodeIndexConfig.t)
    (this : CodeIndexConfigManager) : CodeIndexConfigManager * LoadResult :=
  let previousConfigSnapshot := previousConfigSnapshot this in
  let this' := _loadAndSetConfiguration config this in
  let requiresRestart :=
    doesConfigChangeRequireRestart getDefaultModelId getModelDimension this'
      (Some previousConfigSnapshot) in
  (this', {| configSnapshot := previousConfigSnapshot;
             currentIsConfigured := isConfigured this';
             requiresRestart := requiresRestart |}).

End Loading.

(** The configuration of the demo script: ollama, enabled. *)
Definition demoConfig : CodeIndexConfig.t :=
  CodeIndexConfig.mk true
    (EmbedderConfig.Ollama (Some "nomic-embed-text") (Some "http://localhost:11434"))
    (Some "http://localhost:6333") None.

(** An openai-compatible configuration with a dimension, and the one whose
    dimension is NaN. *)
Definition compatibleConfig (dimension : JsNumber) : CodeIndexConfig.t :=
  CodeIndexConfig.mk true
    (EmbedderConfig.OpenAiCompatible (Some "custom-embed")
       "http://localhost:8080/v1" "secret" dimension)
    (Some "http://localhost:6333") None.

Definition nanDimensionConfig : CodeIndexConfig.t := compatibleConfig JsNaN.

End ConfigManager.

(** * Part II: the tree-sitter definition listing *)

Module TreeSitter.

(** ** Outcomes: a value, or a thrown exception / rejected promise *)

Inductive Outcome (A : Type) : Type :=
  | Normal (a : A)
  | Throw.
Arguments Normal {A} a.
Arguments Throw {A}.

#[global] Instance Outcome_ret : MRet Outcome := λ A a, Normal a.
#[global] Instance Outcome_bind : MBind Outcome := λ A B f m,
  match m with
  | Normal a => f a
  | Throw => Throw
  end.

(** [try { body } catch { return fallback }]. *)
Definition tryCatch {A} (body : Outcome A) (fallback : A) : Outcome A :=
  match body with
  | Normal a => Normal a
  | Throw => Normal fallback
  end.

(** ** Strings *)

Definition newline : string := String "010"%char "".

(** [s.startsWith(p)], and the rest of [s] after the prefix [p]. *)
Fixpoint stripPrefix (p s : string) : option string :=
  match p with
  | "" => Some s
  | String a p' =>
      match s with
      | String b s' => if bool_decide (a = b) then stripPrefix p' s' else None
      | "" => None
      end
  end.

(** [s.includes(sub)]. *)
Fixpoint includes (s sub : string) : bool :=
  match stripPrefix sub s with
  | Some _ => true
  | None =>
      match s with
      | String _ s' => includes s' sub
      | "" => false
      end
  end.

(** [s.trim()], on the white space of the ASCII range. *)
Fixpoint trimStart (s : string) : string :=
  match s with
  | String c s' => if Ascii.is_space c then trimStart s' else s
  | "" => ""
  end.

Fixpoint trimEnd (s : string) : string :=
  match s with
  | String c s' =>
      match trimEnd s' with
      | "" => if Ascii.is_space c then "" else String c ""
      | t => String c t
      end
  | "" => ""
  end.

Definition trim (s : string) : string := trimEnd (trimStart s).

Definition isUpper (c : ascii) : bool :=
  let n := Ascii.N_of_ascii c in ((65 <=? n) && (n <=? 90))%N.

Definition toLowerChar (c : ascii) : ascii :=
  if isUpper c then Ascii.ascii_of_N (Ascii.N_of_ascii c + 32) else c.

(** [s.toLowerCase()], on a string given by its UTF-8 bytes. The letters
    [A]-[Z] become [a]-[z]; the Kelvin sign U+212A (bytes E2 84 AA) becomes
    [k]; the dotted capital I U+0130 (bytes C4 B0) becomes [i] followed by
    the combining dot U+0307 (bytes CC 87). These are the characters whose
    lower case has a character of the ASCII range in it. The other
    characters outside that range are left as they are: their lower case
    lies outside it too, and a lower-cased extension is only compared with
    the ASCII strings of [extensions] and with [.md] and [.markdown], and
    used as the key of a parser once that comparison has succeeded. *)
Fixpoint toLowerCase (s : string) : string :=
  match s with
  | String "226"%char (String "132"%char (String "170"%char s')) =>
      String "k"%char (toLowerCase s')
  | String "196"%char (String "176"%char s') =>
      String "i"%char (String "204"%char (String "135"%char (toLowerCase s')))
  | String c s' => String (toLowerChar c) (toLowerCase s')
  | "" => ""
  end.

(** [s.slice(1)]. *)
Definition slice1 (s : string) : string :=
  match s with
  | String _ s' => s'
  | "" => ""
  end.

(** [s.split("\n")]: never empty, one entry more than there are newlines. *)
Fixpoint splitLines (s : string) : list string :=
  match s with
  | "" => [""]
  | String c s' =>
      if bool_decide (c = "010"%char) then "" :: splitLines s'
      else match splitLines s' with
           | l :: ls => String c l :: ls
           | [] => [String c ""]
           end
  end.

(** A word character of a regular expression: [[A-Za-z0-9_]]. *)
Definition isWordChar (c : ascii) : bool :=
  let n := Ascii.N_of_ascii c in
  (((65 <=? n) && (n <=? 90)) || ((97 <=? n) && (n <=? 122))
   || ((48 <=? n) && (n <=? 57)) || (n =? 95))%N.

(** ** The regular expression [HTML_ELEMENTS]

    [/^[^A-Z]*<\/?(?:div|span|button|input|h[1-6]|p|a|img|ul|li|form)\b/],
    written as the backtracking matcher that it denotes. *)

Definition htmlTags : list string :=
  ["div"; "span"; "button"; "input";
   "h1"; "h2"; "h3"; "h4"; "h5"; "h6";
   "p"; "a"; "img"; "ul"; "li"; "form"].

(** [\b] after a tag name: the end of the input or a non-word character. *)
Definition wordBoundary (rest : string) : bool :=
  match rest with
  | "" => true
  | String c _ => negb (isWordChar c)
  end.

(** [(?:div|...|form)\b] at the start of [s]. *)
Definition matchTag (s : string) : bool :=
  existsb (λ tag, match stripPrefix tag s with
                  | Some rest => wordBoundary rest
                  | None => false
                  end) htmlTags.

(** [<\/?(?:...)\b] at the start of [s]. *)
Definition matchElement (s : string) : bool :=
  match s with
  | String "<"%char r =>
      match r with
      | String "/"%char r' => matchTag r' || matchTag r
      | _ => matchTag r
      end
  | _ => false
  end.

(** [HTML_ELEMENTS.test(s)]: some prefix free of capitals is followed by an
    element. *)
Fixpoint HTML_ELEMENTS_test (s : string) : bool :=
  matchElement s
  || match s with
     | String c s' => negb (isUpper c) && HTML_ELEMENTS_test s'
     | "" => false
     end.

(** ** Syntax nodes and captures *)

Record Position := mkPosition { row : Z; column : Z }.

(** What [processCaptures] reads of a tree-sitter node (or of the node-like
    objects of the markdown parser). *)
#[local] Unset Elimination Schemes.
Inductive SyntaxNode := mkNode {
  startPosition : Position;
  endPosition : Position;
  text : string;
  parent : option SyntaxNode;
  lastChild : option SyntaxNode
}.
#[local] Set Elimination Schemes.

Record Capture := mkCapture { node : SyntaxNode; name : string }.

(** ** The minimum span *)

Definition DEFAULT_MIN_COMPONENT_LINES_VALUE : Z := 4.

(** ** [processCaptures] *)

(** One output line: [`${startLine + 1}--${endLine + 1} | ${label}\n`]. *)
Definition formatLine (startLine endLine : Z) (label : string) : string :=
  pretty (startLine + 1) +:+ "--" +:+ pretty (endLine + 1)
    +:+ " | " +:+ label +:+ newline.

(** [`${startLine}-${endLine}`]. *)
Definition lineKey (startLine endLine : Z) : string :=
  pretty startLine +:+ "-" +:+ pretty endLine.

(** A definition record as the spec names it, with 0-based rows. *)
Record Definition_ := mkDefinition {
  startLine : Z;
  endLine : Z;
  headerLine : string
}.

(** The mutable locals of [processCaptures]. [emitted] is a ghost field: the
    records whose lines were appended to [formattedOutput], in order. *)
Record ProcState := mkProcState {
  formattedOutput : string;
  processedLines : gset string;
  emitted : list Definition_
}.

Definition initialState : ProcState :=
  {| formattedOutput := ""; processedLines := ∅; emitted := [] |}.

(** [formattedOutput += ...; processedLines.add(key)]. *)
Definition emit (st : ProcState) (s e : Z) (label key : string) : ProcState :=
  {| formattedOutput := formattedOutput st +:+ formatLine s e label;
     processedLines := {[ key ]} ∪ processedLines st;
     emitted := emitted st ++ [mkDefinition s e label] |}.

(** [lines[r]]. *)
Definition lineAt (lines : list string) (r : Z) : option string :=
  if r <? 0 then None else lines !! Z.to_nat r.

(** [`${lines[r]}`] inside a template literal. *)
Definition lineText (lines : list string) (r : Z) : string :=
  default "undefined" (lineAt lines r).

Definition needsHtmlFiltering (language : string) : bool :=
  bool_decide (language ∈ ["jsx"; "tsx"]).

Definition isNotHtmlElement (language line : string) : bool :=
  if negb (needsHtmlFiltering language) then true
  else negb (HTML_ELEMENTS_test (trim line)).

(** [name.includes("name") ? node.parent : node]. *)
Definition definitionNode (capture : Capture) : option SyntaxNode :=
  if includes (name capture) "name" then parent (node capture)
  else Some (node capture).

(** The "larger definition" context of the second emission. *)
Definition emitContext (minLines : Z) (lines : list string)
    (st : ProcState) (nd : SyntaxNode) : ProcState :=
  match parent nd with
  | Some p =>
      match lastChild p with
      | Some lc =>
          let contextEnd := row (endPosition lc) in
          let contextSpan := contextEnd - row (startPosition p) + 1 in
          if minLines <=? contextSpan then
            let rangeKey := lineKey (row (startPosition p)) contextEnd in
            if bool_decide (rangeKey ∈ processedLines st) then st
            else emit st (row (startPosition p)) contextEnd
                   (lineText lines (row (startPosition p))) rangeKey
          else st
      | None => st
      end
  | None => st
  end.

(** The body of [captures.forEach((capture) => ...)]. [minLines] is the value
    that [getMinComponentLines()] returns during the call. *)
Definition processCapture (minLines : Z) (lines : list string)
    (language : string) (st : ProcState) (capture : Capture)
    : Outcome ProcState :=
  let nd := node capture in
  let nm := name capture in
  if negb (includes nm "definition") && negb (includes nm "name") then Normal st
  else
    match definitionNode capture with
    | None => Normal st
    | Some dn =>
        let startLine := row (startPosition dn) in
        let endLine := row (endPosition dn) in
        let lineCount := endLine - startLine + 1 in
        if lineCount <? minLines then Normal st
        else
          let key := lineKey startLine endLine in
          if bool_decide (key ∈ processedLines st) then Normal st
          else
            match lineAt lines startLine with
            | None => Throw (* [undefined.trim()] *)
            | Some line =>
                let startLineContent := trim line in
                if includes nm "name.definition" then
                  let componentName := text nd in
                  if truthy (Some componentName)
                  then Normal (emit st startLine endLine line key)
                  else Normal st
                else if isNotHtmlElement language startLineContent then
                  Normal (emitContext minLines lines
                            (emit st startLine endLine line key) nd)
                else Normal st
            end
    end.

(** [captures.sort((a, b) => a.node.startPosition.row - b.node.startPosition.row)]:
    a stable sort on the start row of the captured node. *)
Definition captureRow (c : Capture) : Z := row (startPosition (node c)).

Fixpoint insertCapture (c : Capture) (cs : list Capture) : list Capture :=
  match cs with
  | [] => [c]
  | d :: cs' =>
      if captureRow d <? captureRow c then d :: insertCapture c cs'
      else c :: cs
  end.

Definition sortCaptures (cs : list Capture) : list Capture :=
  foldr insertCapture [] cs.

(** [forEach] with a body that may throw. *)
Fixpoint forEachCapture (minLines : Z) (lines : list string)
    (language : string) (st : ProcState) (cs : list Capture)
    : Outcome ProcState :=
  match cs with
  | [] => Normal st
  | c :: cs' =>
      st' ← processCapture minLines lines language st c;
      forEachCapture minLines lines language st' cs'
  end.

(** The state in which the loop of [processCaptures] ends. *)
Definition runCaptures (minLines : Z) (captures : list Capture)
    (lines : list string) (language : string) : Outcome ProcState :=
  forEachCapture minLines lines language initialState (sortCaptures captures).

(** [processCaptures(captures, lines, language)]; [None] is [null]. *)
Definition processCaptures (minLines : Z) (captures : list Capture)
    (lines : list string) (language : string) : Outcome (option string) :=
  if bool_decide (length captures = 0%nat) then Normal None
  else
    st ← runCaptures minLines captures lines language;
    if bool_decide (formattedOutput st ≠ "")
    then Normal (Some (formattedOutput st))
    else Normal None.

(** ** Sample captures

    The captures that the tag queries give for three small files. *)

Definition pos (r : Z) : Position := mkPosition r 0.

(** A TypeScript file with a function of three lines and one of four. *)
Definition minLinesSource : list string :=
  ["function short() {";
   "  return 1";
   "}";
   "";
   "function kept() {";
   "  const a = 1";
   "  return a";
   "}";
   ""].

Definition keptFunction : SyntaxNode :=
  mkNode (pos 4) (pos 7) "function kept() { ... }" None None.

Definition minLinesProgram : SyntaxNode :=
  mkNode (pos 0) (pos 8) "" None (Some keptFunction).

Definition minLinesCaptures : list Capture :=
  [ mkCapture (mkNode (pos 0) (pos 2) "function short() { ... }"
                 (Some minLinesProgram) None) "definition.function";
    mkCapture (mkNode (pos 0) (pos 0) "short"
                 (Some (mkNode (pos 0) (pos 2) "" (Some minLinesProgram) None)) None)
      "name.definition.function";
    mkCapture (mkNode (pos 4) (pos 7) "function kept() { ... }"
                 (Some minLinesProgram) None) "definition.function";
    mkCapture (mkNode (pos 4) (pos 4) "kept"
                 (Some (mkNode (pos 4) (pos 7) "" (Some minLinesProgram) None)) None)
      "name.definition.function" ].

(** A markdown file whose only section has two lines. *)
Definition shortMarkdownSource : list string :=
  ["# Title"; "One line of text."].

Definition shortMarkdownCaptures : list Capture :=
  [ mkCapture (mkNode (pos 0) (pos 1) "Title"
                 (Some (mkNode (pos 0) (pos 1) "" None None)) None)
      "name.definition.header.h1";
    mkCapture (mkNode (pos 0) (pos 1) "Title" None None)
      "definition.header.h1" ].

(** A TSX file: a block of markup, then a component (scenario S2). *)
Definition tsxSource : list string :=
  ["  <div className=x>";
   "    <span>hello</span>";
   "    <p>text</p>";
   "  </div>";
   "const Button = () => (";
   "  <button>";
   "    ok";
   "  </button>";
   ")";
   ""].

Definition divElement : SyntaxNode := mkNode (pos 0) (pos 3) "<div ...>" None None.

(** The markup block captured as a definition ... *)
Definition divCapture : Capture := mkCapture divElement "definition.component".

(** ... and its tag name captured as the name of a definition. *)
Definition divNameCapture : Capture :=
  mkCapture (mkNode (pos 0) (pos 0) "div" (Some divElement) None)
    "name.definition.component".

Definition buttonCapture : Capture :=
  mkCapture (mkNode (pos 4) (pos 8) "const Button = ..." None None)
    "definition.function".

(** ** Vocabulary for the properties of the loop *)

(** The text that a listing of the records [ds] consists of. *)
Definition render (ds : list Definition_) : string :=
  foldr (λ d acc, formatLine (startLine d) (endLine d) (headerLine d) +:+ acc) "" ds.

Definition rangeOf (d : Definition_) : Z * Z := (startLine d, endLine d).

(** Every record goes through [emit], and only for a range that is long
    enough and whose key is new; a property of the state that such an
    emission keeps is kept by the whole loop. *)
Definition emitInvariant (minLines : Z) (lines : list string)
    (I : ProcState → Prop) : Prop :=
  ∀ st s e, I st → minLines ≤ e - s + 1 → lineKey s e ∉ processedLines st →
    I (emit st s e (lineText lines s) (lineKey s e)).

Definition spansEnough (minLines : Z) (st : ProcState) : Prop :=
  Forall (λ d, minLines ≤ endLine d - startLine d + 1) (emitted st).

Definition keysRecorded (st : ProcState) : Prop :=
  (∀ d, d ∈ emitted st → lineKey (startLine d) (endLine d) ∈ processedLines st)
  ∧ NoDup (rangeOf <$> emitted st).

Definition outputRendered (st : ProcState) : Prop :=
  formattedOutput st = render (emitted st).

Definition headersFromLines (lines : list string) (st : ProcState) : Prop :=
  Forall (λ d, headerLine d = lineText lines (startLine d)) (emitted st).

(** No white space occurs in [s] (true of every tag name of [htmlTags]). *)
Fixpoint noSpace (s : string) : bool :=
  match s with
  | String c s' => negb (Ascii.is_space c) && noSpace s'
  | "" => true
  end.

(** The order in which [sortCaptures] leaves the captures. *)
Definition rowLe (c d : Capture) : Prop := captureRow c ≤ captureRow d.



(** The parent of the captured node, if there is one, starts inside the
    file: true of the captures of a file over the lines of that file. *)
Definition contextInFile (lines : list string) (c : Capture) : Prop :=
  ∀ p, parent (node c) = Some p →
    is_Some (lineAt lines (row (startPosition p))).

Definition isDigit (c : ascii) : bool :=
  let n := Ascii.N_of_ascii c in ((48 <=? n) && (n <=? 57))%N.

Fixpoint allDigits (s : string) : bool :=
  match s with
  | String c s' => isDigit c && allDigits s'
  | "" => true
  end.

(** Every recorded key is the key of an emitted record. *)
Definition keysFromRecords (st : ProcState) : Prop :=
  ∀ k, k ∈ processedLines st →
    ∃ d, d ∈ emitted st ∧ lineKey (startLine d) (endLine d) = k.

(** The capture [c], with definition node [dn], passes every filter of the
    loop: its name marks a definition or a name, its span is long enough,
    and either it names a definition with a non-empty text, or its first
    line is let through by the HTML filter of the language. *)
Definition survives (minLines : Z) (lines : list string) (language : string)
    (c : Capture) (dn : SyntaxNode) : Prop :=
  (includes (name c) "definition" = true ∨ includes (name c) "name" = true)
  ∧ definitionNode c = Some dn
  ∧ minLines ≤ row (endPosition dn) - row (startPosition dn) + 1
  ∧ if includes (name c) "name.definition" then text (node c) ≠ ""
    else ∀ line, lineAt lines (row (startPosition dn)) = Some line →
           isNotHtmlElement language (trim line) = true.

(** ** Files *)

(** The supported extensions, each with its leading dot. *)
Definition extensions : list string :=
  (λ e, "." +:+ e) <$>
  ["tla"; "js"; "jsx"; "ts"; "vue"; "tsx"; "py";
   "rs"; "go";
   "c"; "h";
   "cpp"; "hpp";
   "cs";
   "rb"; "java"; "php"; "swift";
   "sol";
   "kt"; "kts";
   "ex"; "exs";
   "el";
   "html"; "htm";
   "md"; "markdown";
   "json";
   "css";
   "rdl";
   "ml"; "mli";
   "lua";
   "scala";
   "toml";
   "zig";
   "elm";
   "ejs"; "erb"].

(** [TreeSitterDependencies]: the file system, the workspace and the path
    utilities, as the functions they answer with. [readFile] gives the
    decoded content, or [None] when the read is rejected; [findFiles] is the
    listing that [workspace.findFiles] resolves to. *)
Record TreeSitterDependencies := mkDependencies {
  fileExists : string → bool;
  readFile : string → option string;
  shouldIgnore : string → bool;
  findFiles : list string;
  extname : string → string;
  basename : string → string;
  relative : string → string → string
}.

(** A loaded parser together with its tag query: from the content of a file
    to the captures of the query on its tree, unless parsing throws. *)
Definition ParserAndQuery : Type := string → Outcome (list Capture).

(** [LanguageParser]: the loaded parsers by extension (without the dot). *)
Definition LanguageParser : Type := string → option ParserAndQuery.

Definition notExistMessage : string :=
  "This file does not exist or you do not have permission to access it.".

Definition isMarkdownExt (ext : string) : bool :=
  bool_decide (ext = ".md") || bool_decide (ext = ".markdown").

(** [separateFiles(allFiles, pathUtils)]. *)
Definition separateFiles (allFiles : list string) (extnameOf : string → string)
    : list string * list string :=
  let filesToParse :=
    take 50 (filter (λ file, extnameOf file ∈ extensions) allFiles) in
  let remainingFiles := filter (λ file, file ∉ filesToParse) allFiles in
  (filesToParse, remainingFiles).

(** The listing that a dependencies object has when [workspace.findFiles]
    answers [files]. *)
Definition withFiles (deps : TreeSitterDependencies) (files : list string)
    : TreeSitterDependencies :=
  {| fileExists := fileExists deps; readFile := readFile deps;
     shouldIgnore := shouldIgnore deps; findFiles := files;
     extname := extname deps; basename := basename deps;
     relative := relative deps |}.

Section Parsing.

  (** [parseMarkdown] and [loadRequiredLanguageParsers] live in the modules
      [markdownParser] and [languageParser]; [minLines] is the current value
      of [currentMinComponentLines]. *)
Variable parseMarkdown : string → Outcome (list Capture).
Variable loadRequiredLanguageParsers : list string → Outcome LanguageParser.
Variable minLines : Z.

  (** [parseFile(filePath, languageParsers, dependencies)]. *)
Definition parseFile (filePath : string) (languageParsers : LanguageParser)
      (deps : TreeSitterDependencies) : Outcome (option string) :=
    if shouldIgnore deps filePath then Normal None
    else
      match readFile deps filePath with
      | None => Throw
      | Some fileContent =>
          let extLang := slice1 (toLowerCase (extname deps filePath)) in
          match languageParsers extLang with
          | None => Normal (Some ("Unsupported file type: " +:+ filePath))
          | Some parserAndQuery =>
              tryCatch
                (captures ← parserAndQuery fileContent;
                 let lines := splitLines fileContent in
                 processCaptures minLines captures lines extLang)
                None
          end
      end.

  (** The markdown steps shared by both entry points: read, split, parse the
      headings, process the captures. *)
Definition markdownDefinitionsOf (deps : TreeSitterDependencies)
      (filePath : string) : Outcome (option string) :=
    match readFile deps filePath with
    | None => Throw
    | Some fileContent =>
        let lines := splitLines fileContent in
        markdownCaptures ← parseMarkdown fileContent;
        processCaptures minLines markdownCaptures lines "markdown"
    end.

  (** [parseSourceCodeDefinitionsForFile(filePath, dependencies)]; the inner
      [None] is [undefined]. *)
Definition parseSourceCodeDefinitionsForFile (filePath : string)
      (deps : TreeSitterDependencies) : Outcome (option string) :=
    if negb (fileExists deps filePath) then Normal (Some notExistMessage)
    else
      let ext := toLowerCase (extname deps filePath) in
      if negb (bool_decide (ext ∈ extensions)) then Normal None
      else if isMarkdownExt ext then
        if shouldIgnore deps filePath then Normal None
        else
          markdownDefinitions ← markdownDefinitionsOf deps filePath;
          if truthy markdownDefinitions then
            Normal (Some ("# " +:+ basename deps filePath +:+ newline
                          +:+ default "" markdownDefinitions))
          else Normal None
      else
        languageParsers ← loadRequiredLanguageParsers [filePath];
        definitions ← parseFile filePath languageParsers deps;
        if truthy definitions then
          Normal (Some ("# " +:+ basename deps filePath +:+ newline
                        +:+ default "" definitions))
        else Normal None.

  (** The loop over the markdown files of the top-level listing; an error in
      a file is logged and the file skipped. *)
Fixpoint forEachMarkdownFile (deps : TreeSitterDependencies) (dirPath : string)
      (result : string) (files : list string) : string :=
    match files with
    | [] => result
    | file :: files' =>
        let result' :=
          if shouldIgnore deps file then result
          else
            match markdownDefinitionsOf deps file with
            | Normal markdownDefinitions =>
                if truthy markdownDefinitions then
                  result +:+ "# " +:+ relative deps dirPath file +:+ newline
                    +:+ default "" markdownDefinitions +:+ newline
                else result
            | Throw => result
            end in
        forEachMarkdownFile deps dirPath result' files'
    end.

  (** The loop over the other files; [parseFile] may reject. *)
Fixpoint forEachOtherFile (deps : TreeSitterDependencies) (dirPath : string)
      (languageParsers : LanguageParser) (result : string)
      (files : list string) : Outcome string :=
    match files with
    | [] => Normal result
    | file :: files' =>
        definitions ← parseFile file languageParsers deps;
        let result' :=
          if truthy definitions then
            result +:+ "# " +:+ relative deps dirPath file +:+ newline
              +:+ default "" definitions +:+ newline
          else result in
        forEachOtherFile deps dirPath languageParsers result' files'
    end.

  (** [parseSourceCodeForDefinitionsTopLevel(dirPath, dependencies)]. *)
Definition parseSourceCodeForDefinitionsTopLevel (dirPath : string)
      (deps : TreeSitterDependencies) : Outcome string :=
    if negb (fileExists deps dirPath) then
      Normal "This directory does not exist or you do not have permission to access it."
    else
      let allFiles := findFiles deps in
      let filesToParse := fst (separateFiles allFiles (extname deps)) in
      let allowedFilesToParse :=
        filter (λ file, shouldIgnore deps file = false) filesToParse in
      let markdownFiles :=
        filter (λ file, isMarkdownExt (toLowerCase (extname deps file)) = true)
          allowedFilesToParse in
      let otherFiles :=
        filter (λ file, isMarkdownExt (toLowerCase (extname deps file)) = false)
          allowedFilesToParse in
      languageParsers ← loadRequiredLanguageParsers otherFiles;
      let result := forEachMarkdownFile deps dirPath "" markdownFiles in
      result ← forEachOtherFile deps dirPath languageParsers result otherFiles;
      Normal (if bool_decide (result ≠ "") then result
              else "No source code definitions found.").

End Parsing.

(** The captures, the lines and the language key from which the listing of
    [filePath] is computed: by the markdown route or through a loaded parser
    and its query. *)
Inductive ListedFrom (parseMarkdown : string → Outcome (list Capture))
    (loadRequiredLanguageParsers : list string → Outcome LanguageParser)
    (deps : TreeSitterDependencies) (filePath : string)
    : list Capture → list string → string → Prop :=
  | ListedMarkdown (fileContent : string) (captures : list Capture) :
      isMarkdownExt (toLowerCase (extname deps filePath)) = true →
      readFile deps filePath = Some fileContent →
      parseMarkdown fileContent = Normal captures →
      ListedFrom parseMarkdown loadRequiredLanguageParsers deps filePath
        captures (splitLines fileContent) "markdown"
  | ListedTreeSitter (fileContent : string) (languageParsers : LanguageParser)
      (parserAndQuery : ParserAndQuery) (captures : list Capture) :
      isMarkdownExt (toLowerCase (extname deps filePath)) = false →
      loadRequiredLanguageParsers [filePath] = Normal languageParsers →
      readFile deps filePath = Some fileContent →
      languageParsers (slice1 (toLowerCase (extname deps filePath)))
        = Some parserAndQuery →
      parserAndQuery fileContent = Normal captures →
      ListedFrom parseMarkdown loadRequiredLanguageParsers deps filePath
        captures (splitLines fileContent)
        (slice1 (toLowerCase (extname deps filePath))).

(** ** A sample workspace *)

(** The extension of a path: from its last dot on. *)
Fixpoint sampleExtname (path : string) : string :=
  match path with
  | "" => ""
  | String c rest =>
      match sampleExtname rest with
      | "" => if bool_decide (c = "."%char) then path else ""
      | ext => ext
      end
  end.

(** The base name of a path: what follows its last slash. *)
Fixpoint sampleBasename (path : string) : string :=
  match path with
  | "" => ""
  | String c rest =>
      if includes rest "/" then sampleBasename rest
      else if bool_decide (c = "/"%char) then rest else path
  end.

(** [lines.join("\n")]. *)
Fixpoint joinLines (ls : list string) : string :=
  match ls with
  | [] => ""
  | [l] => l
  | l :: ls' => l +:+ newline +:+ joinLines ls'
  end.

Definition sampleFiles : list (string * string) :=
  [ ("/ws/src/funcs.ts", joinLines minLinesSource);
    ("/ws/notes.txt", "plain text");
    ("/ws/Makefile", "all:") ].

Definition sampleDependencies : TreeSitterDependencies :=
  {| fileExists := λ path, bool_decide (path ∈ sampleFiles.*1);
     readFile := λ path, (snd ∘ snd) <$> list_find (λ entry, entry.1 = path) sampleFiles;
     shouldIgnore := λ _, false;
     findFiles := sampleFiles.*1;
     extname := sampleExtname;
     basename := sampleBasename;
     relative := λ _ path, path |}.

(** No heading parser is needed for the sample workspace. *)
Definition sampleParseMarkdown : string → Outcome (list Capture) :=
  λ _, Normal [].

(** The TypeScript parser of the sample workspace answers with the captures
    of the one TypeScript file there is. *)
Definition sampleLanguageParsers : LanguageParser :=
  λ ext, if bool_decide (ext = "ts")
         then Some (λ _, Normal minLinesCaptures) else None.

Definition sampleLoadRequiredLanguageParsers
    : list string → Outcome LanguageParser :=
  λ _, Normal sampleLanguageParsers.

(** ** Further vocabulary *)

(** The captures that pass the first test of the loop: the name marks a
    definition or a name. *)
Definition relevant (c : Capture) : bool :=
  includes (name c) "definition" || includes (name c) "name".

(** The definition node of the capture, if there is one, starts on a row of
    the file. *)
Definition startsInFile (lines : list string) (c : Capture) : Prop :=
  ∀ dn, definitionNode c = Some dn →
    is_Some (lineAt lines (row (startPosition dn))).

(** The dependencies with another file system to read from. *)
Definition withReadFile (deps : TreeSitterDependencies)
    (read : string → option string) : TreeSitterDependencies :=
  {| fileExists := fileExists deps; readFile := read;
     shouldIgnore := shouldIgnore deps; findFiles := findFiles deps;
     extname := extname deps; basename := basename deps;
     relative := relative deps |}.

(** A function declaration whose node reaches beyond the last line. *)
Definition strayCapture : Capture :=
  mkCapture (mkNode (pos 40) (pos 45) "function stray() { ... }" None None)
    "definition.function".

(** A capture of a call, which is neither a definition nor a name. *)
Definition referenceCapture : Capture :=
  mkCapture (mkNode (pos 5) (pos 5) "a" None None) "reference.call".

(** The sample workspace with its directory, and the same workspace when it
    ignores its TypeScript file. *)
Definition workspaceDependencies : TreeSitterDependencies :=
  {| fileExists := λ path, bool_decide (path ∈ "/ws" :: sampleFiles.*1);
     readFile := readFile sampleDependencies;
     shouldIgnore := λ _, false;
     findFiles := sampleFiles.*1;
     extname := sampleExtname; basename := sampleBasename;
     relative := λ _ path, path |}.

Definition ignoringDependencies : TreeSitterDependencies :=
  {| fileExists := fileExists workspaceDependencies;
     readFile := readFile sampleDependencies;
     shouldIgnore := λ path, bool_decide (path = "/ws/src/funcs.ts");
     findFiles := sampleFiles.*1;
     extname := sampleExtname; basename := sampleBasename;
     relative := λ _ path, path |}.

(** A file system on which the TypeScript file cannot be read. *)
Definition unreadableFuncs (path : string) : option string :=
  if bool_decide (path = "/ws/src/funcs.ts") then None
  else readFile sampleDependencies path.

(** A workspace with one markdown file. *)
Definition docsDependencies : TreeSitterDependencies :=
  {| fileExists := λ path, bool_decide (path ∈ ["/docs"; "/docs/README.md"]);
     readFile := λ path,
       if bool_decide (path = "/docs/README.md")
       then Some (joinLines shortMarkdownSource) else None;
     shouldIgnore := λ _, false;
     findFiles := ["/docs/README.md"];
     extname := sampleExtname; basename := sampleBasename;
     relative := λ _ path, path |}.

(** A heading parser whose only capture starts beyond the last line. *)
Definition strayParseMarkdown : string → Outcome (list Capture) :=
  λ _, Normal [strayCapture].

(** Parsers that throw on every file, and a loader without parsers. *)
Definition throwingLoader : list string → Outcome LanguageParser :=
  λ _, Normal (λ _, Some (λ _, Throw)).

Definition emptyLoader : list string → Outcome LanguageParser :=
  λ _, Normal (λ _, None).

(** The range [r] is read off the capture [c]: it is the range of its
    definition node, or the range from the start of the parent of its node
    to the end of the last child of that parent. *)
Definition rangeFrom (c : Capture) (r : Z * Z) : Prop :=
  (relevant c = true
   ∧ ∃ dn, definitionNode c = Some dn
           ∧ r = (row (startPosition dn), row (endPosition dn)))
  ∨ (∃ p lc, parent (node c) = Some p ∧ lastChild p = Some lc
             ∧ r = (row (startPosition p), row (endPosition lc))).

End TreeSitter.

(** * Properties of the restart controller *)

Lemma strict_ne_refl {A} `{EqDecision A} (a : A) : strict_ne a a = false.
Proof. unfold strict_ne. by rewrite bool_decide_eq_false_2; [|intros ?]. Qed.

Lemma strict_ne_true {A} `{EqDecision A} (a b : A) : a ≠ b → strict_ne a b = true.
Proof. intros. unfold strict_ne. by rewrite bool_decide_eq_true_2. Qed.

Section ControllerFacts.

Import ConfigManager.

Variable getDefaultModelId : EmbedderProvider → string.
Variable getModelDimension : EmbedderProvider → string → option Z.

Local Abbreviation hasVectorDimensionChanged :=
    (_hasVectorDimensionChanged getDefaultModelId getModelDimension).
Local Abbreviation requiresRestart :=
    (doesConfigChangeRequireRestart getDefaultModelId getModelDimension).

  (** Against its own provider and model the manager sees no dimension
      change, whatever the model table says. *)
Lemma hasVectorDimensionChanged_self (this : CodeIndexConfigManager) :
    hasVectorDimensionChanged this (embedderProvider this) (modelId this) = false.
Proof.
    unfold _hasVectorDimensionChanged.
    by rewrite !bool_decide_eq_true_2.
Qed.

  (** A dimension differs from itself exactly when it is NaN. *)
Lemma js_strict_ne_self (d : JsNumber) :
    js_strict_ne d d = bool_decide (d = JsNaN).
Proof.
    destruct d; simpl; try done;
      by rewrite !bool_decide_eq_false_2 by (by intros ?).
Qed.

  (** Of the comparisons of step 4, the one of the dimension is the only one
      that can tell the manager from its own snapshot. *)
Lemma credentialsChanged_self (this : CodeIndexConfigManager) :
    credentialsChanged this (Some (previousConfigSnapshot this))
    = hasNaNDimension this.
Proof.
    unfold credentialsChanged, hasNaNDimension; simpl.
    rewrite !strict_ne_refl, !andb_false_r, js_strict_ne_self. simpl.
    by destruct (bool_decide (embedderProvider this = openai_compatible)),
      (bool_decide (currentModelDimension this = JsNaN)).
Qed.

Lemma restart_against_own_snapshot (this : CodeIndexConfigManager) :
    requiresRestart this (Some (previousConfigSnapshot this))
    = isEnabled this && isConfigured this && hasNaNDimension this.
Proof.
    unfold doesConfigChangeRequireRestart; simpl.
    rewrite strict_ne_refl, hasVectorDimensionChanged_self, credentialsChanged_self.
    destruct (isEnabled this), (isConfigured this); reflexivity.
Qed.


  (** When the provider or the resolved model differs and one of the two
      dimensions is missing from the table, the dimension check itself
      answers true. *)
Lemma hasVectorDimensionChanged_unresolvable (this : CodeIndexConfigManager)
      (prevProvider : EmbedderProvider) (prevModelId : option string) :
    let prevModel := default (getDefaultModelId prevProvider) prevModelId in
    let curModel := default (getDefaultModelId (embedderProvider this)) (modelId this) in
    prevProvider ≠ embedderProvider this ∨ prevModel ≠ curModel →
    getModelDimension prevProvider prevModel = None
      ∨ getModelDimension (embedderProvider this) curModel = None →
    hasVectorDimensionChanged this prevProvider prevModelId = true.
Proof.
    intros prevModel curModel Hchg Hdim. unfold _hasVectorDimensionChanged.
    fold prevModel curModel.
    destruct Hchg as [Hp|Hm].
    - rewrite (bool_decide_eq_false_2 _ Hp); simpl.
      destruct Hdim as [-> | ->]; [done|]. by destruct (getModelDimension _ _).
    - rewrite (bool_decide_eq_false_2 _ Hm), andb_false_r.
      destruct Hdim as [-> | ->]; [done|]. by destruct (getModelDimension _ _).
Qed.

  (** C4 (amended). If the feature is or was enabled, at least one of the two
      snapshots is configured, the provider or the resolved model id changed,
      and the dimension of the previous or of the current pair is not in the
      model table, then [doesConfigChangeRequireRestart] returns true. *)
Theorem restart_when_dimension_unresolvable
      (this : CodeIndexConfigManager) (prev : option Snapshot.t) :
    let prevEnabled := default false (prev ≫= Snapshot.enabled) in
    let prevConfigured := default false (prev ≫= Snapshot.configured) in
    let prevProvider := default openai (prev ≫= Snapshot.embedderProvider) in
    let prevModel :=
      default (getDefaultModelId prevProvider) (prev ≫= Snapshot.modelId) in
    let curModel :=
      default (getDefaultModelId (embedderProvider this)) (modelId this) in
    isEnabled this = true ∨ prevEnabled = true →
    prevConfigured = true ∨ isConfigured this = true →
    prevProvider ≠ embedderProvider this ∨ prevModel ≠ curModel →
    getModelDimension prevProvider prevModel = None
      ∨ getModelDimension (embedderProvider this) curModel = None →
    requiresRestart this prev = true.
Proof.
    intros prevEnabled prevConfigured prevProvider prevModel curModel
      Hen Hconf Hchg Hdim.
    unfold doesConfigChangeRequireRestart.
    fold prevEnabled prevConfigured prevProvider.
    rewrite (hasVectorDimensionChanged_unresolvable this prevProvider
               (prev ≫= Snapshot.modelId) Hchg Hdim).
    destruct (isEnabled this), prevEnabled, prevConfigured, (isConfigured this);
      simpl; try reflexivity;
      destruct Hen as [?|?], Hconf as [?|?]; try discriminate;
      by destruct (strict_ne _ _).
Qed.

End ControllerFacts.



(** The configured ollama manager against its own snapshot, and an
    openai-compatible manager with an explicit dimension against its own. *)
Example configured_manager_against_itself :
  ConfigManager.doesConfigChangeRequireRestart
    ConfigManager.sampleDefaultModelId ConfigManager.sampleModelDimension
    ConfigManager.ollamaManager
    (Some (ConfigManager.previousConfigSnapshot ConfigManager.ollamaManager))
  = false
  ∧ ConfigManager.doesConfigChangeRequireRestart
      ConfigManager.sampleDefaultModelId ConfigManager.sampleModelDimension
      ConfigManager.compatibleManager
      (Some (ConfigManager.previousConfigSnapshot ConfigManager.compatibleManager))
    = false.
Proof. split; reflexivity. Qed.

(** A change of model to one that the table does not know, on a configured
    and enabled manager, asks for a restart. *)
Lemma restart_when_dimension_unresolvable_witness :
  ConfigManager.doesConfigChangeRequireRestart
    ConfigManager.sampleDefaultModelId ConfigManager.sampleModelDimension
    ConfigManager.customModelManager
    (Some (ConfigManager.previousConfigSnapshot ConfigManager.ollamaManager))
  = true.
Proof.
  apply restart_when_dimension_unresolvable.
  - left; reflexivity.
  - left; reflexivity.
  - right; simpl; discriminate.
  - right; reflexivity.
Defined.

(** C4 as it is stated fails: the provider changed from openai to ollama on
    an enabled manager, the new model is not in the table, and yet no restart
    is asked for, because neither the previous nor the current state is
    configured (step 3 returns false before any comparison is made). *)
Lemma restart_claim_fails_when_both_unconfigured :
  ¬ (∀ (getDefaultModelId : ConfigManager.EmbedderProvider → string)
       (getModelDimension : ConfigManager.EmbedderProvider → string → option Z)
       (this : ConfigManager.CodeIndexConfigManager)
       (prev : option ConfigManager.Snapshot.t),
      let prevEnabled := default false (prev ≫= ConfigManager.Snapshot.enabled) in
      let prevProvider :=
        default ConfigManager.openai (prev ≫= ConfigManager.Snapshot.embedderProvider) in
      let prevModel :=
        default (getDefaultModelId prevProvider) (prev ≫= ConfigManager.Snapshot.modelId) in
      let curModel :=
        default (getDefaultModelId (ConfigManager.embedderProvider this))
          (ConfigManager.modelId this) in
      ConfigManager.isEnabled this = true ∨ prevEnabled = true →
      prevProvider ≠ ConfigManager.embedderProvider this ∨ prevModel ≠ curModel →
      getModelDimension prevProvider prevModel = None
        ∨ getModelDimension (ConfigManager.embedderProvider this) curModel = None →
      ConfigManager.doesConfigChangeRequireRestart
        getDefaultModelId getModelDimension this prev = true).
Proof.
  intros claim.
  specialize (claim ConfigManager.sampleDefaultModelId
                ConfigManager.sampleModelDimension
                ConfigManager.unconfiguredOllamaManager
                (Some (ConfigManager.previousConfigSnapshot
                         ConfigManager.unconfiguredOpenAiManager))).
  simpl in claim.
  discriminate claim.
  - left; reflexivity.
  - left; discriminate.
  - right; reflexivity.
Qed.

(** * Properties of the tag-capture processor *)

Lemma string_app_assoc (s1 s2 s3 : string) :
  (s1 +:+ s2) +:+ s3 = s1 +:+ (s2 +:+ s3).
Proof. induction s1 as [|c s1 IH]; simpl; [done|]. unfold String.app in *. simpl. by rewrite IH. Qed.

Lemma string_app_nil_r (s : string) : s +:+ "" = s.
Proof. induction s as [|c s IH]; [done|]. unfold String.app in *. simpl. by rewrite IH. Qed.

Lemma string_app_eq_nil (s1 s2 : string) : s1 +:+ s2 = "" → s1 = "" ∧ s2 = "".
Proof. destruct s1; [done|]. unfold String.app. simpl. discriminate. Qed.

Section CaptureFacts.

Import TreeSitter.

Variable minLines : Z.
Variable lines : list string.

Lemma render_app (ds1 ds2 : list Definition_) :
  render (ds1 ++ ds2) = render ds1 +:+ render ds2.
Proof.
  induction ds1 as [|d ds1 IH]; simpl; [done|].
  by rewrite IH, string_app_assoc.
Qed.

Lemma lineText_lineAt (r : Z) (line : string) :
  lineAt lines r = Some line → lineText lines r = line.
Proof. unfold lineText. by intros ->. Qed.

Lemma emitContext_preserves (I : ProcState → Prop) (st : ProcState)
    (nd : SyntaxNode) :
  emitInvariant minLines lines I → I st → I (emitContext minLines lines st nd).
Proof.
  intros Hemit HI. unfold emitContext.
  destruct (parent nd) as [p|]; [|done].
  destruct (lastChild p) as [lc|]; [|done].
  destruct (Z.leb_spec minLines (row (endPosition lc) - row (startPosition p) + 1));
    [|done].
  case_bool_decide; [done|]. by apply Hemit.
Qed.

Lemma processCapture_preserves (I : ProcState → Prop) (language : string)
    (st st' : ProcState) (c : Capture) :
  emitInvariant minLines lines I → I st →
  processCapture minLines lines language st c = Normal st' → I st'.
Proof.
  intros Hemit HI. unfold processCapture.
  destruct (negb (includes (name c) "definition") && negb (includes (name c) "name"));
    [by intros [= <-]|].
  destruct (definitionNode c) as [dn|]; [|by intros [= <-]].
  destruct (Z.ltb_spec (row (endPosition dn) - row (startPosition dn) + 1) minLines);
    [by intros [= <-]|].
  case_bool_decide as Hkey; [by intros [= <-]|].
  destruct (lineAt lines (row (startPosition dn))) as [line|] eqn:Hline; [|done].
  rewrite <-(lineText_lineAt _ _ Hline).
  destruct (includes (name c) "name.definition").
  - destruct (truthy _); intros [= <-]; [by apply Hemit|done].
  - destruct (isNotHtmlElement _ _); intros [= <-]; [|done].
    apply emitContext_preserves; [done|]. by apply Hemit.
Qed.

Lemma forEachCapture_preserves (I : ProcState → Prop) (language : string)
    (cs : list Capture) (st st' : ProcState) :
  emitInvariant minLines lines I → I st →
  forEachCapture minLines lines language st cs = Normal st' → I st'.
Proof.
  intros Hemit. revert st.
  induction cs as [|c cs IH]; simpl; intros st HI.
  - by intros [= <-].
  - destruct (processCapture minLines lines language st c) as [st1|] eqn:Hc;
      simpl; [|done].
    apply IH. eapply processCapture_preserves; eauto.
Qed.

Lemma runCaptures_preserves (I : ProcState → Prop) (language : string)
    (captures : list Capture) (st : ProcState) :
  emitInvariant minLines lines I → I initialState →
  runCaptures minLines captures lines language = Normal st → I st.
Proof. intros ??. by apply forEachCapture_preserves. Qed.

Lemma spansEnough_invariant : emitInvariant minLines lines (spansEnough minLines).
Proof.
  intros st s e HI Hspan _. unfold spansEnough in *; simpl.
  apply Forall_app; split; [done|]. by constructor.
Qed.

Lemma keysRecorded_invariant : emitInvariant minLines lines keysRecorded.
Proof.
  intros st s e [Hkeys Hnodup] _ Hfresh. split; simpl.
  - intros d [Hd|Hd]%elem_of_app.
    + apply elem_of_union_r. by apply Hkeys.
    + apply list_elem_of_singleton in Hd as ->. simpl. set_solver.
  - rewrite fmap_app. apply NoDup_app. split_and!; [done| |apply NoDup_singleton].
    intros r Hr Hr'. apply list_elem_of_singleton in Hr' as ->.
    apply list_elem_of_fmap in Hr as (d & Hd & Hin).
    apply Hfresh. injection Hd as -> ->. by apply Hkeys.
Qed.

Lemma outputRendered_invariant : emitInvariant minLines lines outputRendered.
Proof.
  intros st s e HI _ _. unfold outputRendered in *; simpl.
  rewrite render_app, HI. simpl. by rewrite string_app_nil_r.
Qed.

Lemma headersFromLines_invariant : emitInvariant minLines lines (headersFromLines lines).
Proof.
  intros st s e HI _ _. unfold headersFromLines in *; simpl.
  apply Forall_app; split; [done|]. by constructor.
Qed.

End CaptureFacts.

(** The state in which the loop ends satisfies the four invariants. *)
Lemma runCaptures_invariants (minLines : Z) (captures : list TreeSitter.Capture)
    (lines : list string) (language : string) (st : TreeSitter.ProcState) :
  TreeSitter.runCaptures minLines captures lines language = TreeSitter.Normal st →
  TreeSitter.spansEnough minLines st ∧ TreeSitter.keysRecorded st
  ∧ TreeSitter.outputRendered st ∧ TreeSitter.headersFromLines lines st.
Proof.
  intros Hrun. split_and!.
  - eapply runCaptures_preserves; [apply spansEnough_invariant| |done]. constructor.
  - eapply runCaptures_preserves; [apply keysRecorded_invariant| |done].
    split; [intros d Hd; by apply elem_of_nil in Hd|constructor].
  - eapply runCaptures_preserves; [apply outputRendered_invariant| |done]. done.
  - eapply runCaptures_preserves; [apply headersFromLines_invariant| |done]. constructor.
Qed.

(** A capture whose definition spans too few lines leaves the state as it is. *)
Lemma processCapture_short_span (minLines : Z) (lines : list string)
    (language : string) (st : TreeSitter.ProcState) (c : TreeSitter.Capture)
    (dn : TreeSitter.SyntaxNode) :
  TreeSitter.definitionNode c = Some dn →
  TreeSitter.row (TreeSitter.endPosition dn)
    - TreeSitter.row (TreeSitter.startPosition dn) + 1 < minLines →
  TreeSitter.processCapture minLines lines language st c = TreeSitter.Normal st.
Proof.
  intros Hdn Hspan. unfold TreeSitter.processCapture. rewrite Hdn.
  destruct (_ && _); [done|].
  by destruct (Z.ltb_spec
    (TreeSitter.row (TreeSitter.endPosition dn)
       - TreeSitter.row (TreeSitter.startPosition dn) + 1) minLines); [|lia].
Qed.

(** ** The regular expression does not see the trimming *)

Section TrimFacts.

Import TreeSitter.

Lemma space_not_special (c : ascii) :
  Ascii.is_space c = true →
  isUpper c = false ∧ isWordChar c = false ∧ c ≠ "<"%char.
Proof.
  destruct c as [[] [] [] [] [] [] [] []]; simpl; try discriminate;
    intros _; split_and!; (reflexivity || discriminate).
Qed.

Lemma matchElement_space (c : ascii) (s : string) :
  Ascii.is_space c = true → matchElement (String c s) = false.
Proof.
  destruct c as [[] [] [] [] [] [] [] []]; simpl; try discriminate; done.
Qed.

Lemma matchElement_not_lt (c : ascii) (s : string) :
  c ≠ "<"%char → matchElement (String c s) = false.
Proof.
  destruct c as [[] [] [] [] [] [] [] []]; simpl; done.
Qed.

Lemma HTML_ELEMENTS_test_trimStart (s : string) :
  HTML_ELEMENTS_test (trimStart s) = HTML_ELEMENTS_test s.
Proof.
  induction s as [|c s IH]; [done|].
  cbn [trimStart]. destruct (Ascii.is_space c) eqn:Hc; [|done].
  rewrite IH. cbn [HTML_ELEMENTS_test].
  rewrite (matchElement_space c s Hc).
  by destruct (space_not_special c Hc) as (-> & _).
Qed.

Lemma trimEnd_cons (c : ascii) (s : string) :
  trimEnd (String c s)
  = if Ascii.is_space c && bool_decide (trimEnd s = "") then ""
    else String c (trimEnd s).
Proof.
  cbn [trimEnd]. destruct (trimEnd s); [|by rewrite andb_false_r].
  by destruct (Ascii.is_space c).
Qed.

Lemma wordBoundary_trimEnd (s : string) :
  wordBoundary (trimEnd s) = wordBoundary s.
Proof.
  destruct s as [|c s]; [done|]. rewrite trimEnd_cons.
  destruct (Ascii.is_space c) eqn:Hc; [|done].
  destruct (bool_decide _); [|done]. simpl.
  by destruct (space_not_special c Hc) as (_ & -> & _).
Qed.

Lemma stripPrefix_trimEnd (tag s : string) :
  noSpace tag = true →
  match stripPrefix tag (trimEnd s) with
  | Some rest => wordBoundary rest
  | None => false
  end
  = match stripPrefix tag s with
    | Some rest => wordBoundary rest
    | None => false
    end.
Proof.
  revert s. induction tag as [|a tag IH]; intros s Htag.
  - simpl. apply wordBoundary_trimEnd.
  - simpl in Htag. apply andb_true_iff in Htag as [Ha Htag].
    destruct s as [|c s]; [done|]. rewrite trimEnd_cons.
    destruct (Ascii.is_space c && bool_decide (trimEnd s = "")) eqn:Hc.
    + apply andb_true_iff in Hc as [Hc _]. simpl.
      case_bool_decide as Hac; [|done]. subst. by rewrite Hc in Ha.
    + simpl. destruct (bool_decide (a = c)); [|done]. by apply IH.
Qed.

Lemma matchTag_trimEnd (s : string) : matchTag (trimEnd s) = matchTag s.
Proof.
  unfold matchTag.
  assert (Forall (λ tag, noSpace tag = true) htmlTags) as Htags
    by (repeat constructor).
  induction Htags as [|tag tags Htag _ IH]; [done|].
  simpl. by rewrite IH, (stripPrefix_trimEnd tag s Htag).
Qed.

(** The part of [matchElement] after the [<]. *)
Lemma matchElement_lt (s : string) :
  matchElement (String "<" s)
  = matchTag s || match s with String "/"%char r => matchTag r | _ => false end.
Proof.
  cbn [matchElement]. destruct s as [|d s]; [by rewrite orb_false_r|].
  destruct (decide (d = "/"%char)) as [->|Hd]; [apply orb_comm|].
  destruct d as [[] [] [] [] [] [] [] []]; by rewrite ?orb_false_r.
Qed.

Lemma matchElement_trimEnd (s : string) :
  matchElement (trimEnd s) = matchElement s.
Proof.
  destruct s as [|c s]; [done|]. rewrite trimEnd_cons.
  destruct (Ascii.is_space c) eqn:Hc.
  { rewrite (matchElement_space c s Hc). simpl.
    destruct (bool_decide _); [done|]. by rewrite matchElement_space. }
  simpl andb. cbv iota.
  destruct (decide (c = "<"%char)) as [->|Hlt];
    [|by rewrite !matchElement_not_lt].
  rewrite !matchElement_lt, matchTag_trimEnd. f_equal.
  destruct s as [|d s]; [done|]. rewrite trimEnd_cons.
  destruct (Ascii.is_space d) eqn:Hd.
  { assert (d ≠ "/"%char) by (intros ->; discriminate).
    simpl. destruct (bool_decide _); [|];
      destruct d as [[] [] [] [] [] [] [] []]; done. }
  simpl andb. cbv iota.
  destruct (decide (d = "/"%char)) as [->|Hsl]; [apply matchTag_trimEnd|].
  destruct d as [[] [] [] [] [] [] [] []]; done.
Qed.

Lemma HTML_ELEMENTS_test_trimEnd (s : string) :
  HTML_ELEMENTS_test (trimEnd s) = HTML_ELEMENTS_test s.
Proof.
  induction s as [|c s IH]; [done|].
  assert (HTML_ELEMENTS_test (String c s)
          = matchElement (trimEnd (String c s))
            || negb (isUpper c) && HTML_ELEMENTS_test (trimEnd s)) as ->.
  { by rewrite matchElement_trimEnd, IH. }
  rewrite trimEnd_cons.
  destruct (Ascii.is_space c && bool_decide (trimEnd s = "")) eqn:Hc; [|done].
  apply andb_true_iff in Hc as [Hc He]. apply bool_decide_eq_true in He.
  rewrite He. simpl. by rewrite andb_false_r.
Qed.

(** Trimming a line changes nothing for the regular expression: what it
    removes lies before the [<] or after the word boundary. *)
Lemma HTML_ELEMENTS_test_trim (s : string) :
  HTML_ELEMENTS_test (trim s) = HTML_ELEMENTS_test s.
Proof.
  unfold trim. by rewrite HTML_ELEMENTS_test_trimEnd, HTML_ELEMENTS_test_trimStart.
Qed.

End TrimFacts.

(** ** The HTML filter *)

Lemma stripPrefix_app (p q s : string) :
  is_Some (TreeSitter.stripPrefix (p +:+ q) s) →
  is_Some (TreeSitter.stripPrefix p s).
Proof.
  revert s. induction p as [|a p IH]; intros s; [by eauto|].
  unfold String.app; simpl. destruct s as [|b s]; [done|].
  destruct (bool_decide (a = b)); [apply IH|done].
Qed.

(** A string that includes [p] followed by [q] includes [p]. *)
Lemma includes_prefix (p q s : string) :
  TreeSitter.includes s (p +:+ q) = true → TreeSitter.includes s p = true.
Proof.
  induction s as [|c s IH]; simpl.
  - destruct (TreeSitter.stripPrefix (p +:+ q) "") eqn:Hpq; [|done].
    intros _. by destruct (stripPrefix_app p q "") as [? ->]; [rewrite Hpq|].
  - destruct (TreeSitter.stripPrefix (p +:+ q) (String c s)) eqn:Hpq.
    + intros _.
      by destruct (stripPrefix_app p q (String c s)) as [? ->]; [rewrite Hpq|].
    + intros Hs. rewrite (IH Hs). by destruct (TreeSitter.stripPrefix p _).
Qed.

Lemma includes_name_definition (nm : string) :
  TreeSitter.includes nm "name.definition" = true →
  TreeSitter.includes nm "name" = true.
Proof. apply (includes_prefix "name" ".definition"). Qed.

(** C3 (amended). For JSX and TSX, a capture whose name does not contain
    [name.definition] and whose first line matches the HTML-element pattern
    is dropped: it leaves output and recorded keys as they are. A capture
    whose name contains [name.definition] is emitted by the first emission
    alone under every language, whatever its first line, once it got as far
    as the filter (non-empty text, a definition node of enough lines, a
    range not yet listed, a first line in the file). A capture of another
    name that got as far is emitted, with its context, when the language is
    not JSX or TSX or when its first line does not match the pattern: for
    the other languages no capture is dropped by the filter, and for JSX and
    TSX none but those of the first sentence. *)
Theorem html_filter_spares_name_definitions :
  (∀ (minLines : Z) (lines : list string) (language : string)
     (st : TreeSitter.ProcState) (c : TreeSitter.Capture)
     (dn : TreeSitter.SyntaxNode) (line : string),
     language ∈ ["jsx"; "tsx"] →
     TreeSitter.includes (TreeSitter.name c) "name.definition" = false →
     TreeSitter.definitionNode c = Some dn →
     TreeSitter.lineAt lines (TreeSitter.row (TreeSitter.startPosition dn))
       = Some line →
     TreeSitter.HTML_ELEMENTS_test line = true →
     TreeSitter.processCapture minLines lines language st c = TreeSitter.Normal st)
  ∧ (∀ (minLines : Z) (lines : list string) (language : string)
       (st : TreeSitter.ProcState) (c : TreeSitter.Capture)
       (dn : TreeSitter.SyntaxNode) (line : string),
       let startLine := TreeSitter.row (TreeSitter.startPosition dn) in
       let endLine := TreeSitter.row (TreeSitter.endPosition dn) in
       TreeSitter.includes (TreeSitter.name c) "name.definition" = true →
       TreeSitter.text (TreeSitter.node c) ≠ "" →
       TreeSitter.definitionNode c = Some dn →
       minLines ≤ endLine - startLine + 1 →
       TreeSitter.lineKey startLine endLine ∉ TreeSitter.processedLines st →
       TreeSitter.lineAt lines startLine = Some line →
       TreeSitter.processCapture minLines lines language st c
       = TreeSitter.Normal
           (TreeSitter.emit st startLine endLine line
              (TreeSitter.lineKey startLine endLine)))
  ∧ (∀ (minLines : Z) (lines : list string) (language : string)
       (st : TreeSitter.ProcState) (c : TreeSitter.Capture)
       (dn : TreeSitter.SyntaxNode) (line : string),
       let startLine := TreeSitter.row (TreeSitter.startPosition dn) in
       let endLine := TreeSitter.row (TreeSitter.endPosition dn) in
       language ∉ ["jsx"; "tsx"] ∨ TreeSitter.HTML_ELEMENTS_test line = false →
       TreeSitter.includes (TreeSitter.name c) "name.definition" = false →
       TreeSitter.relevant c = true →
       TreeSitter.definitionNode c = Some dn →
       minLines ≤ endLine - startLine + 1 →
       TreeSitter.lineKey startLine endLine ∉ TreeSitter.processedLines st →
       TreeSitter.lineAt lines startLine = Some line →
       TreeSitter.processCapture minLines lines language st c
       = TreeSitter.Normal
           (TreeSitter.emitContext minLines lines
              (TreeSitter.emit st startLine endLine line
                 (TreeSitter.lineKey startLine endLine))
              (TreeSitter.node c))).
Proof.
  split_and!.
  - intros minLines lines language st c dn line Hlang Hname Hdn Hline Hhtml.
    unfold TreeSitter.processCapture. rewrite Hdn, Hline, Hname.
    unfold TreeSitter.isNotHtmlElement, TreeSitter.needsHtmlFiltering.
    rewrite (bool_decide_eq_true_2 _ Hlang), !HTML_ELEMENTS_test_trim, Hhtml.
    simpl. by repeat (case_match; try done).
  - intros minLines lines language st c dn line startLine endLine
      Hname Htext Hdn Hspan Hkey Hline.
    unfold TreeSitter.processCapture.
    rewrite (includes_name_definition _ Hname), andb_false_r, Hdn.
    fold startLine endLine.
    destruct (Z.ltb_spec (endLine - startLine + 1) minLines); [lia|].
    rewrite (bool_decide_eq_false_2 _ Hkey), Hline, Hname.
    by destruct (TreeSitter.text (TreeSitter.node c)).
  - intros minLines lines language st c dn line startLine endLine
      Hpass Hname Hrel Hdn Hspan Hkey Hline.
    unfold TreeSitter.processCapture.
    assert (negb (TreeSitter.includes (TreeSitter.name c) "definition")
            && negb (TreeSitter.includes (TreeSitter.name c) "name") = false)
      as ->.
    { unfold TreeSitter.relevant in Hrel.
      by destruct (TreeSitter.includes _ "definition"),
        (TreeSitter.includes _ "name"). }
    rewrite Hdn. fold startLine endLine.
    destruct (Z.ltb_spec (endLine - startLine + 1) minLines); [lia|].
    rewrite (bool_decide_eq_false_2 _ Hkey), Hline, Hname.
    assert (TreeSitter.isNotHtmlElement language (TreeSitter.trim line) = true)
      as ->; [|done].
    unfold TreeSitter.isNotHtmlElement, TreeSitter.needsHtmlFiltering.
    destruct Hpass as [Hlang|Hhtml].
    + by rewrite (bool_decide_eq_false_2 _ Hlang).
    + rewrite !HTML_ELEMENTS_test_trim, Hhtml. by destruct (negb _).
Qed.

(** Scenario S2: the block of markup is dropped under TSX; its tag name,
    captured as the name of a definition, is listed under TSX all the same;
    and the block itself is listed when the language is python. *)
Lemma html_filter_spares_name_definitions_witness :
  TreeSitter.processCapture TreeSitter.DEFAULT_MIN_COMPONENT_LINES_VALUE
    TreeSitter.tsxSource "tsx" TreeSitter.initialState TreeSitter.divCapture
  = TreeSitter.Normal TreeSitter.initialState
  ∧ TreeSitter.processCapture TreeSitter.DEFAULT_MIN_COMPONENT_LINES_VALUE
      TreeSitter.tsxSource "tsx" TreeSitter.initialState TreeSitter.divNameCapture
    = TreeSitter.Normal
        (TreeSitter.emit TreeSitter.initialState 0 3 "  <div className=x>"
           (TreeSitter.lineKey 0 3))
  ∧ TreeSitter.processCapture TreeSitter.DEFAULT_MIN_COMPONENT_LINES_VALUE
      TreeSitter.tsxSource "python" TreeSitter.initialState TreeSitter.divCapture
    = TreeSitter.Normal
        (TreeSitter.emitContext TreeSitter.DEFAULT_MIN_COMPONENT_LINES_VALUE
           TreeSitter.tsxSource
           (TreeSitter.emit TreeSitter.initialState 0 3 "  <div className=x>"
              (TreeSitter.lineKey 0 3))
           TreeSitter.divElement).
Proof.
  split_and!.
  - apply (proj1 html_filter_spares_name_definitions) with
      (dn := TreeSitter.divElement) (line := "  <div className=x>").
    + set_solver.
    + reflexivity.
    + reflexivity.
    + reflexivity.
    + reflexivity.
  - apply (proj1 (proj2 html_filter_spares_name_definitions)
             TreeSitter.DEFAULT_MIN_COMPONENT_LINES_VALUE TreeSitter.tsxSource
             "tsx" TreeSitter.initialState TreeSitter.divNameCapture
             TreeSitter.divElement "  <div className=x>").
    + reflexivity.
    + discriminate.
    + reflexivity.
    + vm_compute. discriminate.
    + apply not_elem_of_empty.
    + reflexivity.
  - apply (proj2 (proj2 html_filter_spares_name_definitions)
             TreeSitter.DEFAULT_MIN_COMPONENT_LINES_VALUE TreeSitter.tsxSource
             "python" TreeSitter.initialState TreeSitter.divCapture
             TreeSitter.divElement "  <div className=x>").
    + left. apply (bool_decide_eq_false_1 _). reflexivity.
    + reflexivity.
    + reflexivity.
    + reflexivity.
    + vm_compute. discriminate.
    + apply not_elem_of_empty.
    + reflexivity.
Defined.

(** Scenario S2 as a whole: the markup is dropped, the component is kept. *)
Example tsx_markup_dropped_component_kept :
  TreeSitter.processCaptures TreeSitter.DEFAULT_MIN_COMPONENT_LINES_VALUE
    [TreeSitter.divCapture; TreeSitter.buttonCapture] TreeSitter.tsxSource "tsx"
  = TreeSitter.Normal
      (Some (TreeSitter.formatLine 4 8 "const Button = () => (")).
Proof. by vm_compute. Qed.

(** C3 as it is stated fails for the captures whose name contains
    [name.definition]: in a TSX file, the first line of the definition
    matches the pattern and the capture is listed all the same. *)
Lemma html_filter_skips_name_definition_capture :
  TreeSitter.needsHtmlFiltering "tsx" = true
  ∧ TreeSitter.includes (TreeSitter.name TreeSitter.divNameCapture)
      "name.definition" = true
  ∧ TreeSitter.lineAt TreeSitter.tsxSource 0 = Some "  <div className=x>"
  ∧ TreeSitter.HTML_ELEMENTS_test "  <div className=x>" = true
  ∧ TreeSitter.processCaptures TreeSitter.DEFAULT_MIN_COMPONENT_LINES_VALUE
      [TreeSitter.divNameCapture] TreeSitter.tsxSource "tsx"
    = TreeSitter.Normal (Some (TreeSitter.formatLine 0 3 "  <div className=x>")).
Proof. split_and!; by vm_compute. Qed.

(** ** The order of the emitted records *)

Section OrderFacts.

Import TreeSitter.

Lemma insertCapture_perm (c : Capture) (cs : list Capture) :
  insertCapture c cs ≡ₚ c :: cs.
Proof.
  induction cs as [|d cs IH]; simpl; [done|].
  destruct (captureRow d <? captureRow c); [|done].
  by rewrite IH, Permutation_swap.
Qed.

Lemma sortCaptures_perm (cs : list Capture) : sortCaptures cs ≡ₚ cs.
Proof.
  induction cs as [|c cs IH]; simpl; [done|].
  by rewrite insertCapture_perm, IH.
Qed.

Lemma insertCapture_sorted (c : Capture) (cs : list Capture) :
  StronglySorted rowLe cs → StronglySorted rowLe (insertCapture c cs).
Proof.
  induction 1 as [|d cs Hcs IH Hd]; simpl; [by repeat constructor|].
  destruct (Z.ltb_spec (captureRow d) (captureRow c)).
  - constructor; [done|].
    rewrite insertCapture_perm. constructor; [unfold rowLe; lia|done].
  - constructor; [by constructor|]. constructor; [done|].
    eapply Forall_impl; [done|]. unfold rowLe. intros; simpl in *; lia.
Qed.

(** The captures are visited by ascending start row of the captured node. *)
Lemma sortCaptures_sorted (cs : list Capture) :
  StronglySorted rowLe (sortCaptures cs).
Proof.
  induction cs as [|c cs IH]; simpl; [constructor|].
  by apply insertCapture_sorted.
Qed.



Variable minLines : Z.
Variable lines : list string.




End OrderFacts.

(** ** The key of a range determines the range *)

Section KeyFacts.

Import TreeSitter.

Lemma pretty_N_char_digit (x : N) : isDigit (pretty_N_char x) = true.
Proof. unfold pretty_N_char. by repeat case_match. Qed.

Lemma pretty_N_go_digits (x : N) (s : string) :
  allDigits s = true → allDigits (pretty_N_go x s) = true.
Proof.
  revert s. induction (N.lt_wf_0 x) as [x _ IH]; intros s Hs.
  destruct (decide (x = 0%N)) as [->|Hx]; [by rewrite pretty_N_go_0|].
  rewrite pretty_N_go_step by lia.
  apply IH; [apply N.div_lt; lia|].
  simpl. by rewrite pretty_N_char_digit.
Qed.

Lemma pretty_N_go_not_empty (x : N) (s : string) :
  s ≠ "" → pretty_N_go x s ≠ "".
Proof.
  revert s. induction (N.lt_wf_0 x) as [x _ IH]; intros s Hs.
  destruct (decide (x = 0%N)) as [->|Hx]; [by rewrite pretty_N_go_0|].
  rewrite pretty_N_go_step by lia.
  apply IH; [apply N.div_lt; lia|done].
Qed.

Lemma pretty_N_digits (x : N) :
  allDigits (pretty x) = true ∧ pretty x ≠ "".
Proof.
  unfold pretty, pretty_N. case_decide as Hx; [done|]. split.
  - by apply pretty_N_go_digits.
  - rewrite pretty_N_go_step by lia. by apply pretty_N_go_not_empty.
Qed.

(** An integer prints as digits, after a minus sign when it is negative. *)
Lemma pretty_Z_shape (z : Z) :
  ∃ ds, allDigits ds = true ∧ ds ≠ ""
        ∧ (pretty z = ds ∨ pretty z = String "-" ds).
Proof.
  destruct z as [|p|p].
  - by exists "0"; split_and!; [..|left].
  - exists (pretty (N.pos p)).
    destruct (pretty_N_digits (N.pos p)). by split_and!; [..|left].
  - exists (pretty (N.pos p)).
    destruct (pretty_N_digits (N.pos p)). by split_and!; [..|right].
Qed.

Lemma digits_dash_split (d1 d2 r1 r2 : string) :
  allDigits d1 = true → allDigits d2 = true →
  d1 +:+ String "-" r1 = d2 +:+ String "-" r2 → d1 = d2 ∧ r1 = r2.
Proof.
  revert d2. induction d1 as [|c1 d1 IH]; intros [|c2 d2] H1 H2 Heq;
    unfold String.app in *; simpl in *.
  - by injection Heq as ->.
  - injection Heq as <- _. discriminate.
  - injection Heq as -> _. discriminate.
  - apply andb_true_iff in H1 as [_ H1]. apply andb_true_iff in H2 as [_ H2].
    injection Heq as -> Heq. by destruct (IH d2 H1 H2 Heq) as [-> ->].
Qed.

Lemma lineKey_inj (a b c d : Z) : lineKey a b = lineKey c d → a = c ∧ b = d.
Proof.
  unfold lineKey. intros Heq.
  destruct (pretty_Z_shape a) as (da & Hda & Hnea & Ha).
  destruct (pretty_Z_shape c) as (dc & Hdc & Hnec & Hc).
  assert (pretty a = pretty c ∧ pretty b = pretty d) as [Hac Hbd].
  { destruct Ha as [Ha|Ha], Hc as [Hc|Hc]; rewrite Ha, Hc in Heq |- *.
    - by destruct (digits_dash_split _ _ _ _ Hda Hdc Heq) as [-> ->].
    - destruct da as [|x da]; [done|]. unfold String.app in Heq; simpl in *.
      injection Heq as -> _. discriminate.
    - destruct dc as [|x dc]; [done|]. unfold String.app in Heq; simpl in *.
      injection Heq as <- _. discriminate.
    - unfold String.app in Heq; simpl in Heq. injection Heq as Heq.
      by destruct (digits_dash_split _ _ _ _ Hda Hdc Heq) as [-> ->]. }
  split; by apply (inj pretty).
Qed.

Variable minLines : Z.
Variable lines : list string.

Lemma keysFromRecords_invariant : emitInvariant minLines lines keysFromRecords.
Proof.
  intros st s e HI _ _ k. simpl. intros [Hk|Hk]%elem_of_union.
  - apply elem_of_singleton in Hk as ->.
    exists (mkDefinition s e (lineText lines s)). split; [|done].
    apply elem_of_app. right. by apply list_elem_of_singleton.
  - destruct (HI k Hk) as (d & Hd & Hkey). exists d. split; [|done].
    apply elem_of_app. by left.
Qed.

Lemma listed_invariant (r : Z * Z) :
  emitInvariant minLines lines (λ st, r ∈ rangeOf <$> emitted st).
Proof.
  intros st s e HI _ _. simpl. rewrite fmap_app. apply elem_of_app. by left.
Qed.

(** A capture that passes the filters leaves its range listed. *)
Lemma processCapture_lists_survivor (language : string) (st st' : ProcState)
    (c : Capture) (dn : SyntaxNode) :
  survives minLines lines language c dn →
  keysFromRecords st →
  processCapture minLines lines language st c = Normal st' →
  (row (startPosition dn), row (endPosition dn)) ∈ rangeOf <$> emitted st'.
Proof.
  intros (Hname & Hdn & Hspan & Hlast) HK. unfold processCapture.
  rewrite Hdn.
  destruct (negb (includes (name c) "definition")
            && negb (includes (name c) "name")) eqn:Hn.
  { apply andb_true_iff in Hn as [?%negb_true_iff ?%negb_true_iff].
    destruct Hname; congruence. }
  destruct (Z.ltb_spec (row (endPosition dn) - row (startPosition dn) + 1) minLines);
    [lia|].
  case_bool_decide as Hkey.
  { intros [= <-]. destruct (HK _ Hkey) as (d & Hd & Heq).
    apply lineKey_inj in Heq as [Hs He].
    apply list_elem_of_fmap. exists d. split; [|done].
    unfold rangeOf. by rewrite Hs, He. }
  destruct (lineAt lines (row (startPosition dn))) as [line|] eqn:Hline; [|done].
  destruct (includes (name c) "name.definition").
  - destruct (text (node c)) as [|x t] eqn:Ht; [done|]. simpl.
    intros [= <-]. simpl. rewrite fmap_app. apply elem_of_app. right.
    by apply list_elem_of_singleton.
  - rewrite (Hlast line eq_refl). intros [= <-].
    apply (emitContext_preserves minLines lines
             (λ st, (row (startPosition dn), row (endPosition dn))
                      ∈ rangeOf <$> emitted st)); [apply listed_invariant|].
    simpl. rewrite fmap_app. apply elem_of_app. right.
    by apply list_elem_of_singleton.
Qed.

Lemma forEachCapture_lists_survivor (language : string) (cs : list Capture)
    (st st' : ProcState) (c : Capture) (dn : SyntaxNode) :
  c ∈ cs → survives minLines lines language c dn →
  keysFromRecords st →
  forEachCapture minLines lines language st cs = Normal st' →
  (row (startPosition dn), row (endPosition dn)) ∈ rangeOf <$> emitted st'.
Proof.
  intros Hin Hsurv. revert st Hin.
  induction cs as [|c' cs IH]; intros st Hin HK; [by apply elem_of_nil in Hin|].
  simpl.
  destruct (processCapture minLines lines language st c') as [st1|] eqn:Hstep;
    simpl; [|done].
  apply elem_of_cons in Hin as [Hin|Hin].
  - subst c'. intros Hrest.
    apply (forEachCapture_preserves minLines lines
             (λ st, (row (startPosition dn), row (endPosition dn))
                      ∈ rangeOf <$> emitted st) language cs st1 st');
      [apply listed_invariant| |done].
    by eapply processCapture_lists_survivor.
  - apply IH; [done|].
    eapply processCapture_preserves; [apply keysFromRecords_invariant|done..].
Qed.

End KeyFacts.

(** C2 (amended). Whatever the language key, markdown included, the text that
    the processor builds is the listing of the emitted records, every emitted
    record spans at least [minLines] lines, and a capture whose definition
    spans fewer lines is discarded. *)
Theorem emitted_records_span_min_lines (minLines : Z)
    (captures : list TreeSitter.Capture) (lines : list string)
    (language : string) (st : TreeSitter.ProcState) :
  TreeSitter.runCaptures minLines captures lines language = TreeSitter.Normal st →
  TreeSitter.formattedOutput st = TreeSitter.render (TreeSitter.emitted st)
  ∧ Forall (λ d, minLines ≤ TreeSitter.endLine d - TreeSitter.startLine d + 1)
      (TreeSitter.emitted st)
  ∧ ∀ st0 c dn,
      TreeSitter.definitionNode c = Some dn →
      TreeSitter.row (TreeSitter.endPosition dn)
        - TreeSitter.row (TreeSitter.startPosition dn) + 1 < minLines →
      TreeSitter.processCapture minLines lines language st0 c = TreeSitter.Normal st0.
Proof.
  intros Hrun.
  destruct (runCaptures_invariants _ _ _ _ _ Hrun) as (Hspan & _ & Hout & _).
  split_and!; [done..|]. intros st0 c dn. apply processCapture_short_span.
Qed.

(** Scenario S3: of a function of three lines and one of four, only the
    second is listed (with the range of its parent, the program node). *)
Lemma emitted_records_span_min_lines_witness :
  ∃ st,
    TreeSitter.runCaptures TreeSitter.DEFAULT_MIN_COMPONENT_LINES_VALUE
      TreeSitter.minLinesCaptures TreeSitter.minLinesSource "ts"
      = TreeSitter.Normal st
    ∧ TreeSitter.rangeOf <$> TreeSitter.emitted st = [(4, 7); (0, 7)]
    ∧ Forall (λ d, TreeSitter.DEFAULT_MIN_COMPONENT_LINES_VALUE
                     ≤ TreeSitter.endLine d - TreeSitter.startLine d + 1)
        (TreeSitter.emitted st).
Proof.
  eexists. split; [vm_compute; reflexivity|]. split; [reflexivity|].
  eapply (emitted_records_span_min_lines
            TreeSitter.DEFAULT_MIN_COMPONENT_LINES_VALUE
            TreeSitter.minLinesCaptures TreeSitter.minLinesSource "ts").
  vm_compute; reflexivity.
Defined.

(** C2 as it is stated fails for markdown: the lower bound applies to the
    language key "markdown" as to any other, so a heading section of two
    lines is discarded, not kept. *)
Lemma markdown_short_section_discarded :
  Forall (λ c, TreeSitter.includes (TreeSitter.name c) "definition" = true)
    TreeSitter.shortMarkdownCaptures
  ∧ TreeSitter.processCaptures TreeSitter.DEFAULT_MIN_COMPONENT_LINES_VALUE
      TreeSitter.shortMarkdownCaptures TreeSitter.shortMarkdownSource "markdown"
    = TreeSitter.Normal None
  ∧ TreeSitter.processCaptures 2
      TreeSitter.shortMarkdownCaptures TreeSitter.shortMarkdownSource "markdown"
    = TreeSitter.Normal (Some (TreeSitter.formatLine 0 1 "# Title")).
Proof. split_and!; [by repeat constructor|by vm_compute..]. Qed.

(** C5. The text that the processor builds is the listing of the emitted
    records, and no two emitted records have the same pair of start and end
    line: a capture that resolves to a range already emitted, whatever its
    node type or capture name, adds nothing. The range of every capture that
    passes the filters is listed, so that captures which pass the filters
    and share a range have one record between them, emitted no later than
    the first of them is visited. *)
Theorem one_record_per_line_range (minLines : Z)
    (captures : list TreeSitter.Capture) (lines : list string)
    (language : string) (st : TreeSitter.ProcState) :
  TreeSitter.runCaptures minLines captures lines language = TreeSitter.Normal st →
  TreeSitter.formattedOutput st = TreeSitter.render (TreeSitter.emitted st)
  ∧ NoDup (TreeSitter.rangeOf <$> TreeSitter.emitted st)
  ∧ ∀ c dn,
      c ∈ captures →
      TreeSitter.survives minLines lines language c dn →
      (TreeSitter.row (TreeSitter.startPosition dn),
       TreeSitter.row (TreeSitter.endPosition dn))
        ∈ TreeSitter.rangeOf <$> TreeSitter.emitted st.
Proof.
  intros Hrun.
  destruct (runCaptures_invariants _ _ _ _ _ Hrun) as (_ & [_ Hnodup] & Hout & _).
  split_and!; [done..|].
  intros c dn Hin Hsurv.
  eapply (forEachCapture_lists_survivor minLines lines language
            (TreeSitter.sortCaptures captures)); [|done| |exact Hrun].
  - by rewrite sortCaptures_perm.
  - by intros k Hk%not_elem_of_empty.
Qed.

(** The four captures of the sample file name two ranges twice each; every
    range is listed once. *)
Lemma one_record_per_line_range_witness :
  ∃ st,
    TreeSitter.runCaptures 3 TreeSitter.minLinesCaptures
      TreeSitter.minLinesSource "ts" = TreeSitter.Normal st
    ∧ TreeSitter.rangeOf <$> TreeSitter.emitted st = [(0, 2); (0, 7); (4, 7)]
    ∧ NoDup (TreeSitter.rangeOf <$> TreeSitter.emitted st).
Proof.
  eexists. split; [vm_compute; reflexivity|]. split; [reflexivity|].
  eapply (one_record_per_line_range 3 TreeSitter.minLinesCaptures
            TreeSitter.minLinesSource "ts").
  vm_compute; reflexivity.
Defined.





(** * Properties of the file listing *)

Section FileFacts.

Import TreeSitter.

Variable parseMarkdown : string → Outcome (list Capture).
Variable loadRequiredLanguageParsers : list string → Outcome LanguageParser.
Variable minLines : Z.

Local Abbreviation definitionsForFile :=
  (parseSourceCodeDefinitionsForFile parseMarkdown loadRequiredLanguageParsers
     minLines).
Local Abbreviation definitionsTopLevel :=
  (parseSourceCodeForDefinitionsTopLevel parseMarkdown
     loadRequiredLanguageParsers minLines).

Lemma formatLine_not_empty (s e : Z) (label : string) : formatLine s e label ≠ "".
Proof.
  unfold formatLine. intros H.
  repeat (apply string_app_eq_nil in H as [_ H]). discriminate.
Qed.

Lemma render_not_empty (ds : list Definition_) : ds ≠ [] → render ds ≠ "".
Proof.
  destruct ds as [|d ds]; [done|]. intros _ H. simpl in H.
  apply string_app_eq_nil in H as [H _]. by apply formatLine_not_empty in H.
Qed.

(** When the loop ends with at least one record, [processCaptures] returns
    the listing of the records. *)
Lemma processCaptures_render (captures : list Capture) (lines : list string)
    (language : string) (st : ProcState) :
  runCaptures minLines captures lines language = Normal st →
  emitted st ≠ [] →
  processCaptures minLines captures lines language
  = Normal (Some (render (emitted st))).
Proof.
  intros Hrun Hne. unfold processCaptures.
  destruct captures as [|c cs].
  { injection Hrun as <-. done. }
  simpl bool_decide. cbv iota. rewrite Hrun. simpl.
  destruct (runCaptures_invariants _ _ _ _ _ Hrun) as (_ & _ & -> & _).
  by rewrite bool_decide_eq_true_2 by by apply render_not_empty.
Qed.

Lemma processCapture_contextInFile (lines : list string) (language : string)
    (st st' : ProcState) (c : Capture) :
  contextInFile lines c →
  Forall (λ d, lineAt lines (startLine d) = Some (headerLine d)) (emitted st) →
  processCapture minLines lines language st c = Normal st' →
  Forall (λ d, lineAt lines (startLine d) = Some (headerLine d)) (emitted st').
Proof.
  intros Hc Hst. unfold processCapture.
  destruct (_ && _); [by intros [= <-]|].
  destruct (definitionNode c) as [dn|]; [|by intros [= <-]].
  destruct (_ <? _); [by intros [= <-]|].
  case_bool_decide; [by intros [= <-]|].
  destruct (lineAt lines (row (startPosition dn))) as [line|] eqn:Hline; [|done].
  assert (Forall (λ d, lineAt lines (startLine d) = Some (headerLine d))
            (emitted (emit st (row (startPosition dn)) (row (endPosition dn)) line
               (lineKey (row (startPosition dn)) (row (endPosition dn)))))) as Hst1.
  { simpl. apply Forall_app; split; [done|]. by repeat constructor. }
  destruct (includes (name c) "name.definition").
  - by destruct (truthy _); intros [= <-].
  - destruct (isNotHtmlElement _ _); intros [= <-]; [|done].
    unfold emitContext. destruct (parent (node c)) as [p|] eqn:Hp; [|done].
    destruct (lastChild p); [|done]. destruct (_ <=? _); [|done].
    case_bool_decide; [done|].
    destruct (Hc p Hp) as [l Hl].
    simpl. rewrite <-app_assoc. apply Forall_app; split; [done|].
    repeat constructor; simpl; [done|].
    unfold lineText. by rewrite Hl.
Qed.

Lemma forEachCapture_contextInFile (lines : list string) (language : string)
    (cs : list Capture) (st st' : ProcState) :
  Forall (contextInFile lines) cs →
  Forall (λ d, lineAt lines (startLine d) = Some (headerLine d)) (emitted st) →
  forEachCapture minLines lines language st cs = Normal st' →
  Forall (λ d, lineAt lines (startLine d) = Some (headerLine d)) (emitted st').
Proof.
  intros Hcs. revert st. induction Hcs as [|c cs Hc _ IH]; simpl; intros st Hst.
  - by intros [= <-].
  - destruct (processCapture minLines lines language st c) as [st1|] eqn:Hstep;
      simpl; [|done].
    apply IH. by eapply processCapture_contextInFile.
Qed.

(** C7. A supported file that exists, is not ignored and yields at least one
    definition record is answered with the line [# basename] followed by the
    listing of the records: one line [start+1--end+1 | header] per record,
    the rows of the nodes being counted from 0 and the printed ones from 1.
    The header of a record is what [lines[startLine]] reads, and it is the
    line of the file at the start row when the parents of the captured nodes
    start inside the file, which holds of the captures of that file. *)
Theorem definitions_for_file_format (filePath : string)
    (deps : TreeSitterDependencies) (captures : list Capture)
    (lines : list string) (language : string) (st : ProcState) :
  fileExists deps filePath = true →
  toLowerCase (extname deps filePath) ∈ extensions →
  shouldIgnore deps filePath = false →
  ListedFrom parseMarkdown loadRequiredLanguageParsers deps filePath
    captures lines language →
  runCaptures minLines captures lines language = Normal st →
  emitted st ≠ [] →
  definitionsForFile filePath deps
  = Normal (Some ("# " +:+ basename deps filePath +:+ newline
                  +:+ render (emitted st)))
  ∧ (∀ d ds, render (d :: ds)
             = (pretty (startLine d + 1) +:+ "--" +:+ pretty (endLine d + 1)
                +:+ " | " +:+ headerLine d +:+ newline) +:+ render ds)
  ∧ Forall (λ d, headerLine d = lineText lines (startLine d)) (emitted st)
  ∧ (Forall (contextInFile lines) captures →
     Forall (λ d, lineAt lines (startLine d) = Some (headerLine d)) (emitted st)).
Proof.
  intros Hex Hext Hign Hlisted Hrun Hne.
  pose proof (processCaptures_render _ _ _ _ Hrun Hne) as Hproc.
  pose proof (render_not_empty _ Hne) as Hrender.
  split_and!; [|done|..].
  - unfold parseSourceCodeDefinitionsForFile.
    rewrite Hex, (bool_decide_eq_true_2 _ Hext). simpl.
    destruct Hlisted as [content caps Hmd Hread Hparse
                        |content lp pq caps Hmd Hload Hread Hlp Hpq];
      rewrite Hmd.
    + rewrite Hign. unfold markdownDefinitionsOf. rewrite Hread, Hparse. simpl.
      rewrite Hproc. by destruct (render (emitted st)).
    + rewrite Hload. simpl. unfold parseFile.
      rewrite Hign, Hread, Hlp, Hpq. simpl. rewrite Hproc.
      by destruct (render (emitted st)).
  - by destruct (runCaptures_invariants _ _ _ _ _ Hrun) as (_ & _ & _ & Hhead).
  - intros Hctx.
    eapply (forEachCapture_contextInFile lines language
              (sortCaptures captures)); [| |exact Hrun].
    + by rewrite sortCaptures_perm.
    + constructor.
Qed.

(** C8. An existing file whose lower-cased extension is not in the list of
    supported extensions is answered with [undefined], without an error.
    An extension with the Kelvin sign for a [k] is lower-cased to one with
    [k], and is not an unsupported one when that is in the list. *)
Theorem unsupported_extension_undefined (filePath : string)
    (deps : TreeSitterDependencies) :
  fileExists deps filePath = true →
  toLowerCase (extname deps filePath) ∉ extensions →
  definitionsForFile filePath deps = Normal None.
Proof.
  intros Hex Hext. unfold parseSourceCodeDefinitionsForFile.
  by rewrite Hex, (bool_decide_eq_false_2 _ Hext).
Qed.

(** C10. A path that does not exist is answered, without an error and not
    with [undefined], with the fixed sentence, which does not begin like a
    listing ([# ...]). *)
Theorem missing_file_message (filePath : string)
    (deps : TreeSitterDependencies) :
  fileExists deps filePath = false →
  definitionsForFile filePath deps
  = Normal (Some "This file does not exist or you do not have permission to access it.")
  ∧ ∀ rest : string,
      "This file does not exist or you do not have permission to access it."
      ≠ "# " +:+ rest.
Proof.
  intros Hex. split.
  - unfold parseSourceCodeDefinitionsForFile. by rewrite Hex.
  - intros rest. discriminate.
Qed.

Lemma filter_all {A} (P : A → Prop) `{∀ x, Decision (P x)} (l : list A) :
  Forall P l → filter P l = l.
Proof.
  induction 1 as [|x l Hx _ IH]; [done|].
  by rewrite filter_cons_True, IH.
Qed.

Lemma filesToParse_fixpoint (files : list string) (extnameOf : string → string) :
  fst (separateFiles (fst (separateFiles files extnameOf)) extnameOf)
  = fst (separateFiles files extnameOf).
Proof.
  unfold separateFiles; simpl.
  rewrite filter_all, take_idemp; [done|].
  apply Forall_take, Forall_forall. by intros f [? _]%list_elem_of_filter.
Qed.

(** The loops over the files do not read the directory listing. *)
Lemma forEachMarkdownFile_withFiles (deps : TreeSitterDependencies)
    (listing : list string) (dirPath result : string) (files : list string) :
  forEachMarkdownFile parseMarkdown minLines (withFiles deps listing) dirPath
    result files
  = forEachMarkdownFile parseMarkdown minLines deps dirPath result files.
Proof.
  revert result. induction files as [|file files IH]; intros result; [done|].
  cbn [forEachMarkdownFile]. by rewrite IH.
Qed.

Lemma forEachOtherFile_withFiles (deps : TreeSitterDependencies)
    (listing : list string) (dirPath : string) (languageParsers : LanguageParser)
    (result : string) (files : list string) :
  forEachOtherFile minLines (withFiles deps listing) dirPath languageParsers
    result files
  = forEachOtherFile minLines deps dirPath languageParsers result files.
Proof.
  revert result. induction files as [|file files IH]; intros result; [done|].
  cbn [forEachOtherFile].
  change (parseFile minLines file languageParsers (withFiles deps listing))
    with (parseFile minLines file languageParsers deps).
  destruct (parseFile minLines file languageParsers deps); [|done].
  simpl. by rewrite IH.
Qed.

(** C9. The files that the top-level listing parses are the first 50 files of
    the directory listing whose extension is in the list of supported
    extensions: at most 50, and the answer is the one for these files alone,
    whatever comes after them in the listing. *)
Theorem top_level_parses_first_fifty (dirPath : string)
    (deps : TreeSitterDependencies) (files : list string) :
  let filesToParse := fst (separateFiles files (extname deps)) in
  filesToParse = take 50 (filter (λ file, extname deps file ∈ extensions) files)
  ∧ (length filesToParse ≤ 50)%nat
  ∧ definitionsTopLevel dirPath (withFiles deps files)
    = definitionsTopLevel dirPath (withFiles deps filesToParse).
Proof.
  intros filesToParse. split_and!.
  - done.
  - unfold filesToParse, separateFiles; simpl. rewrite length_take. lia.
  - unfold parseSourceCodeForDefinitionsTopLevel.
    rewrite !forEachMarkdownFile_withFiles.
    change (findFiles (withFiles deps files)) with files.
    change (findFiles (withFiles deps filesToParse)) with filesToParse.
    change (extname (withFiles deps files)) with (extname deps).
    change (extname (withFiles deps filesToParse)) with (extname deps).
    change (shouldIgnore (withFiles deps files)) with (shouldIgnore deps).
    change (shouldIgnore (withFiles deps filesToParse)) with (shouldIgnore deps).
    change (fileExists (withFiles deps files)) with (fileExists deps).
    change (fileExists (withFiles deps filesToParse)) with (fileExists deps).
    unfold filesToParse. rewrite filesToParse_fixpoint.
    destruct (negb (fileExists deps dirPath)); [done|].
    destruct (loadRequiredLanguageParsers _) as [languageParsers|]; [|done].
    simpl. by rewrite !forEachOtherFile_withFiles.
Qed.

End FileFacts.

(** The TypeScript file of the sample workspace is answered with its two
    records under the line of its base name. *)
Lemma definitions_for_file_format_witness :
  ∃ st,
    TreeSitter.runCaptures TreeSitter.DEFAULT_MIN_COMPONENT_LINES_VALUE
      TreeSitter.minLinesCaptures
      (TreeSitter.splitLines (TreeSitter.joinLines TreeSitter.minLinesSource))
      "ts" = TreeSitter.Normal st
    ∧ TreeSitter.emitted st
      = [ TreeSitter.mkDefinition 4 7 "function kept() {";
          TreeSitter.mkDefinition 0 7 "function short() {" ]
    ∧ TreeSitter.parseSourceCodeDefinitionsForFile
        TreeSitter.sampleParseMarkdown
        TreeSitter.sampleLoadRequiredLanguageParsers
        TreeSitter.DEFAULT_MIN_COMPONENT_LINES_VALUE
        "/ws/src/funcs.ts" TreeSitter.sampleDependencies
      = TreeSitter.Normal
          (Some ("# " +:+ "funcs.ts" +:+ TreeSitter.newline
                 +:+ TreeSitter.render (TreeSitter.emitted st))).
Proof.
  eexists. split; [vm_compute; reflexivity|]. split; [reflexivity|].
  eapply (definitions_for_file_format
            TreeSitter.sampleParseMarkdown
            TreeSitter.sampleLoadRequiredLanguageParsers
            TreeSitter.DEFAULT_MIN_COMPONENT_LINES_VALUE
            "/ws/src/funcs.ts" TreeSitter.sampleDependencies
            TreeSitter.minLinesCaptures
            (TreeSitter.splitLines (TreeSitter.joinLines TreeSitter.minLinesSource))
            (TreeSitter.slice1
               (TreeSitter.toLowerCase
                  (TreeSitter.extname TreeSitter.sampleDependencies
                     "/ws/src/funcs.ts")))).
  - reflexivity.
  - apply (bool_decide_eq_true_1 _). vm_compute. reflexivity.
  - reflexivity.
  - apply (TreeSitter.ListedTreeSitter
             TreeSitter.sampleParseMarkdown
             TreeSitter.sampleLoadRequiredLanguageParsers
             TreeSitter.sampleDependencies "/ws/src/funcs.ts"
             (TreeSitter.joinLines TreeSitter.minLinesSource)
             TreeSitter.sampleLanguageParsers
             (λ _, TreeSitter.Normal TreeSitter.minLinesCaptures));
      reflexivity.
  - vm_compute; reflexivity.
  - discriminate.
Defined.

(** The text file of the sample workspace has no supported extension. *)
Lemma unsupported_extension_undefined_witness :
  TreeSitter.parseSourceCodeDefinitionsForFile
    TreeSitter.sampleParseMarkdown TreeSitter.sampleLoadRequiredLanguageParsers
    TreeSitter.DEFAULT_MIN_COMPONENT_LINES_VALUE
    "/ws/notes.txt" TreeSitter.sampleDependencies
  = TreeSitter.Normal None.
Proof.
  apply unsupported_extension_undefined.
  - reflexivity.
  - apply (bool_decide_eq_false_1 _). vm_compute. reflexivity.
Defined.

(** An extension written with the Kelvin sign U+212A is lower-cased to
    [.kt], a supported extension, and one written with the dotted capital I
    U+0130 to [.i] with a combining dot, which is none. *)
Example kelvin_sign_extension_supported :
  TreeSitter.toLowerCase
    (String "."%char
       (String "226"%char (String "132"%char (String "170"%char "T"))))
  = ".kt"
  ∧ ".kt" ∈ TreeSitter.extensions
  ∧ TreeSitter.toLowerCase (String "."%char (String "196"%char (String "176"%char "")))
    = String "."%char (String "i"%char (String "204"%char (String "135"%char "")))
  ∧ TreeSitter.toLowerCase ".TSX" = ".tsx".
Proof.
  split_and!; try reflexivity.
  apply (bool_decide_eq_true_1 _). vm_compute. reflexivity.
Qed.

(** A file of the sample workspace without any extension is skipped in the
    same way. *)
Example makefile_undefined :
  TreeSitter.parseSourceCodeDefinitionsForFile
    TreeSitter.sampleParseMarkdown TreeSitter.sampleLoadRequiredLanguageParsers
    TreeSitter.DEFAULT_MIN_COMPONENT_LINES_VALUE
    "/ws/Makefile" TreeSitter.sampleDependencies
  = TreeSitter.Normal None.
Proof. by vm_compute. Qed.

(** A path that the sample workspace does not have. *)
Lemma missing_file_message_witness :
  TreeSitter.parseSourceCodeDefinitionsForFile
    TreeSitter.sampleParseMarkdown TreeSitter.sampleLoadRequiredLanguageParsers
    TreeSitter.DEFAULT_MIN_COMPONENT_LINES_VALUE
    "/ws/src/missing.ts" TreeSitter.sampleDependencies
  = TreeSitter.Normal
      (Some "This file does not exist or you do not have permission to access it.").
Proof.
  apply missing_file_message. reflexivity.
Defined.

(** [separateFiles] compares the extension as it is written: a file with an
    extension in capitals is not among the files to parse. *)
Example capital_extension_not_selected :
  TreeSitter.separateFiles ["/ws/A.TS"; "/ws/b.ts"] TreeSitter.sampleExtname
  = (["/ws/b.ts"], ["/ws/A.TS"]).
Proof. by vm_compute. Qed.

(** Of sixty supported files, the fifty first are parsed. *)
Example sixty_files_fifty_parsed :
  let files := (λ n, "f" +:+ pretty n +:+ ".ts") <$> seq 0 60 in
  fst (TreeSitter.separateFiles files TreeSitter.sampleExtname) = take 50 files
  ∧ snd (TreeSitter.separateFiles files TreeSitter.sampleExtname) = drop 50 files.
Proof. by vm_compute. Qed.

(** * Further properties of the restart controller *)

Section LoadingFacts.

Import ConfigManager.

Variable getDefaultModelId : EmbedderProvider → string.
Variable getModelDimension : EmbedderProvider → string → option Z.

Local Abbreviation hasVectorDimensionChanged :=
  (_hasVectorDimensionChanged getDefaultModelId getModelDimension).
Local Abbreviation restartNeeded :=
  (doesConfigChangeRequireRestart getDefaultModelId getModelDimension).
Local Abbreviation load :=
  (loadConfiguration getDefaultModelId getModelDimension).

(** What was loaded does not depend on the manager it was loaded into. *)
Lemma loadAndSet_state (config : CodeIndexConfig.t)
    (this this' : CodeIndexConfigManager) :
  _loadAndSetConfiguration config this = _loadAndSetConfiguration config this'.
Proof. unfold _loadAndSetConfiguration. by destruct (CodeIndexConfig.embedder config). Qed.

(** The loaded manager compares a dimension that is NaN exactly when the
    configuration is openai-compatible with the dimension NaN. *)
Lemma hasNaNDimension_loaded (config : CodeIndexConfig.t)
    (this : CodeIndexConfigManager) :
  hasNaNDimension (_loadAndSetConfiguration config this)
  = match CodeIndexConfig.embedder config with
    | EmbedderConfig.OpenAiCompatible _ _ _ d => bool_decide (d = JsNaN)
    | _ => false
    end.
Proof.
  unfold _loadAndSetConfiguration, hasNaNDimension.
  by destruct (CodeIndexConfig.embedder config).
Qed.

Lemma isEnabled_loaded (config : CodeIndexConfig.t)
    (this : CodeIndexConfigManager) :
  isEnabled (_loadAndSetConfiguration config this)
  = CodeIndexConfig.isEnabled config.
Proof.
  unfold _loadAndSetConfiguration.
  by destruct (CodeIndexConfig.embedder config).
Qed.

(** X1. Loading a configuration that is the one already loaded leaves the
    manager as it is. It asks for no restart when the dimension that the
    manager compares is not NaN: after [initialize()] or
    [loadConfiguration()] on [config], [loadConfiguration()] on the same
    [config] reports [requiresRestart = true] exactly when [config] is
    enabled, configured and openai-compatible with the dimension NaN. *)
Theorem reload_same_configuration (config : CodeIndexConfig.t)
    (this : CodeIndexConfigManager) :
  let loaded := _loadAndSetConfiguration config this in
  fst (load config loaded) = loaded
  ∧ fst (load config (fst (load config this))) = fst (load config this)
  ∧ requiresRestart (snd (load config loaded))
    = CodeIndexConfig.isEnabled config && isConfigured loaded
      && hasNaNDimension loaded
  ∧ requiresRestart (snd (load config (fst (load config this))))
    = CodeIndexConfig.isEnabled config && isConfigured loaded
      && hasNaNDimension loaded
  ∧ (hasNaNDimension loaded = false →
     requiresRestart (snd (load config loaded)) = false
     ∧ requiresRestart (snd (load config (fst (load config this)))) = false).
Proof.
  intros loaded.
  assert (_loadAndSetConfiguration config loaded = loaded) as Hl
    by apply loadAndSet_state.
  assert (restartNeeded loaded (Some (previousConfigSnapshot loaded))
          = CodeIndexConfig.isEnabled config && isConfigured loaded
            && hasNaNDimension loaded) as Hr.
  { rewrite restart_against_own_snapshot. unfold loaded at 1.
    by rewrite isEnabled_loaded. }
  unfold loadConfiguration; simpl. fold loaded. rewrite !Hl, !Hr.
  do 4 (split; [done|]).
  intros ->. by rewrite andb_false_r.
Qed.

(** The credentials that [isConfigured()] asks of a loaded configuration. *)
Lemma isConfigured_loaded (config : CodeIndexConfig.t)
    (this : CodeIndexConfigManager) :
  isConfigured (_loadAndSetConfiguration config this)
  = match CodeIndexConfig.embedder config with
    | EmbedderConfig.OpenAi _ apiKey => truthy apiKey
    | EmbedderConfig.Ollama _ baseUrl => truthy baseUrl
    | EmbedderConfig.OpenAiCompatible _ baseUrl apiKey _ =>
        truthy (Some baseUrl) && truthy (Some apiKey)
    end
    && bool_decide (CodeIndexConfig.qdrantUrl config ≠ Some "").
Proof.
  unfold _loadAndSetConfiguration, isConfigured.
  destruct (CodeIndexConfig.embedder config); simpl;
    destruct (CodeIndexConfig.qdrantUrl config) as [[|??]|]; simpl;
    by rewrite ?andb_true_r, ?andb_false_r.
Qed.

(** X2. A loaded configuration is configured exactly when the credentials of
    its provider are present (openai: the key; ollama: the base URL;
    openai-compatible: base URL and key) and the vector store URL is not the
    empty string; a configuration without any vector store URL gets the
    default one and counts as having it. Model and dimension play no part. *)
Theorem loaded_configuration_configured (config : CodeIndexConfig.t)
    (this : CodeIndexConfigManager) :
  isConfigured (_loadAndSetConfiguration config this) = true
  ↔ match CodeIndexConfig.embedder config with
    | EmbedderConfig.OpenAi _ apiKey => ∃ k, apiKey = Some k ∧ k ≠ ""
    | EmbedderConfig.Ollama _ baseUrl => ∃ u, baseUrl = Some u ∧ u ≠ ""
    | EmbedderConfig.OpenAiCompatible _ baseUrl apiKey _ =>
        baseUrl ≠ "" ∧ apiKey ≠ ""
    end
    ∧ CodeIndexConfig.qdrantUrl config ≠ Some "".
Proof.
  rewrite isConfigured_loaded, andb_true_iff, bool_decide_eq_true.
  apply and_iff_compat_r.
  destruct (CodeIndexConfig.embedder config) as [m [[|??]|]|m [[|??]|]|m [|??] [|??] d];
    simpl; split; try done; try (by intros (? & [= <-] & ?));
    try (by intros (? & ? & ?)); try (by intros [? ?]); eauto.
Qed.

(** X3. On a manager fresh from the constructor, [loadConfiguration()]
    reports [requiresRestart] exactly when the configuration it loads is
    enabled and configured; and so does [doesConfigChangeRequireRestart]
    for any manager when there is no previous snapshot ([null] or
    [undefined]), the defaults standing for it. *)
Theorem first_load_requires_restart (config : CodeIndexConfig.t)
    (this : CodeIndexConfigManager) :
  requiresRestart (snd (load config newManager))
  = CodeIndexConfig.isEnabled config
    && isConfigured (_loadAndSetConfiguration config newManager)
  ∧ restartNeeded this None = isEnabled this && isConfigured this.
Proof.
  split.
  - unfold loadConfiguration, doesConfigChangeRequireRestart; simpl.
    assert (isEnabled (_loadAndSetConfiguration config newManager)
            = CodeIndexConfig.isEnabled config) as ->.
    { unfold _loadAndSetConfiguration.
      by destruct (CodeIndexConfig.embedder config). }
    destruct (CodeIndexConfig.isEnabled config); simpl; [|done].
    by destruct (isConfigured _).
  - unfold doesConfigChangeRequireRestart; simpl.
    by destruct (isEnabled this), (isConfigured this).
Qed.

(** X4. Whatever else changed (provider, model, keys, URLs), no restart is
    asked for when the feature was disabled and still is, nor when it was
    not configured and still is not. *)
Theorem no_restart_while_disabled_or_unconfigured
    (this : CodeIndexConfigManager) (prev : option Snapshot.t) :
  (default false (prev ≫= Snapshot.enabled) = false ∧ isEnabled this = false)
  ∨ (default false (prev ≫= Snapshot.configured) = false
     ∧ isConfigured this = false) →
  restartNeeded this prev = false.
Proof.
  unfold doesConfigChangeRequireRestart.
  intros [[-> ->]|[-> ->]]; simpl.
  - by destruct (default false (prev ≫= Snapshot.configured)).
  - by destruct (default false (prev ≫= Snapshot.enabled)), (isEnabled this).
Qed.

Lemma dimension_verdict (p : EmbedderProvider) (x y : string) :
  (if bool_decide (x = y) then false
   else match getModelDimension p x, getModelDimension p y with
        | Some a, Some b => strict_ne a b
        | _, _ => true
        end) = true
  ↔ x ≠ y
    ∧ ¬ ∃ d, getModelDimension p x = Some d ∧ getModelDimension p y = Some d.
Proof.
  case_bool_decide as Hxy; [split; [done|by intros [? _]]|].
  destruct (getModelDimension p x) as [a|], (getModelDimension p y) as [b|].
  - unfold strict_ne. rewrite bool_decide_eq_true. split.
    + intros Hab. split; [done|]. intros (d & [= ->] & [= ->]). done.
    + intros [_ Hno] ->. apply Hno. eauto.
  - split; [|done]. intros _. split; [done|]. by intros (d & _ & ?).
  - split; [|done]. intros _. split; [done|]. by intros (d & ? & _).
  - split; [|done]. intros _. split; [done|]. by intros (d & ? & _).
Qed.

(** X5. On an enabled and configured manager, loading the same configuration
    with another model asks for a restart exactly when the resolved model
    ids differ and the table does not give both of them one and the same
    dimension, or the configuration is openai-compatible with the dimension
    NaN (which differs from itself). *)
Theorem model_change_requires_restart (config : CodeIndexConfig.t)
    (m : option string) (this : CodeIndexConfigManager) :
  let loaded := _loadAndSetConfiguration config this in
  let p := EmbedderConfig.provider (CodeIndexConfig.embedder config) in
  let old := default (getDefaultModelId p)
               (EmbedderConfig.model (CodeIndexConfig.embedder config)) in
  let new := default (getDefaultModelId p) m in
  CodeIndexConfig.isEnabled config = true →
  isConfigured loaded = true →
  requiresRestart (snd (load (CodeIndexConfig.withModel config m) loaded)) = true
  ↔ (old ≠ new
     ∧ ¬ ∃ d, getModelDimension p old = Some d ∧ getModelDimension p new = Some d)
    ∨ hasNaNDimension loaded = true.
Proof.
  intros loaded p old new Hen Hconf. subst loaded p old new.
  rewrite hasNaNDimension_loaded.
  destruct config as [en e url key]. simpl in Hen. subst en.
  unfold loadConfiguration, doesConfigChangeRequireRestart, credentialsChanged,
    _hasVectorDimensionChanged, _loadAndSetConfiguration in *.
  destruct e as [mo k|mo u|mo u k d]; simpl in *; rewrite Hconf; simpl.
  all: rewrite ?strict_ne_refl, ?andb_false_r; simpl.
  all: rewrite ?strict_ne_refl, ?js_strict_ne_self; simpl.
  all: rewrite <-dimension_verdict.
  all: destruct (if bool_decide _ then _ else _); try destruct (bool_decide _);
    intuition congruence.
Qed.

(** X6. Turning the feature off on a loaded manager, with nothing else
    changed, asks for a restart only for a configured openai-compatible
    configuration with the dimension NaN; turning it on asks for one exactly
    when the configuration is configured. *)
Theorem toggle_enabled_requires_restart (config : CodeIndexConfig.t)
    (this : CodeIndexConfigManager) :
  let off := CodeIndexConfig.withEnabled config false in
  let on := CodeIndexConfig.withEnabled config true in
  let loaded := _loadAndSetConfiguration config this in
  requiresRestart (snd (load off (_loadAndSetConfiguration on this)))
  = isConfigured loaded && hasNaNDimension loaded
  ∧ requiresRestart (snd (load on (_loadAndSetConfiguration off this)))
    = isConfigured loaded.
Proof.
  unfold loadConfiguration, doesConfigChangeRequireRestart,
    _hasVectorDimensionChanged, credentialsChanged, _loadAndSetConfiguration,
    isConfigured, hasNaNDimension.
  destruct config
    as [en [m [[|??]|]|m [[|??]|]|m [|??] [|??] d] [[|??]|] key];
    simpl; unfold isConfigured, currentModelDimension; simpl;
    rewrite ?strict_ne_refl, ?js_strict_ne_self,
      ?bool_decide_eq_true_2 by done; simpl;
    rewrite ?strict_ne_refl; simpl; split; try done;
    by destruct (bool_decide _).
Qed.

End LoadingFacts.

(** The openai-compatible configuration with the dimension 1024 is loaded a
    second time. *)
Lemma reload_same_configuration_witness :
  ConfigManager.hasNaNDimension
    (ConfigManager._loadAndSetConfiguration
       (ConfigManager.compatibleConfig (JsNum (Qc_of_Z 1024))) ConfigManager.newManager)
  = false
  ∧ ConfigManager.requiresRestart
      (snd (ConfigManager.loadConfiguration
              ConfigManager.sampleDefaultModelId ConfigManager.sampleModelDimension
              (ConfigManager.compatibleConfig (JsNum (Qc_of_Z 1024)))
              (ConfigManager._loadAndSetConfiguration
                 (ConfigManager.compatibleConfig (JsNum (Qc_of_Z 1024)))
                 ConfigManager.newManager)))
    = false.
Proof.
  split; [reflexivity|].
  apply (reload_same_configuration
           ConfigManager.sampleDefaultModelId ConfigManager.sampleModelDimension
           (ConfigManager.compatibleConfig (JsNum (Qc_of_Z 1024))) ConfigManager.newManager).
  reflexivity.
Defined.

(** The demo configuration: the model of scenario S5 is replaced by one that
    the sample table does not know. *)
Lemma model_change_requires_restart_witness :
  ConfigManager.requiresRestart
    (snd (ConfigManager.loadConfiguration
            ConfigManager.sampleDefaultModelId ConfigManager.sampleModelDimension
            (ConfigManager.CodeIndexConfig.withModel ConfigManager.demoConfig
               (Some "custom-embed"))
            (ConfigManager._loadAndSetConfiguration ConfigManager.demoConfig
               ConfigManager.newManager)))
  = true.
Proof.
  apply (model_change_requires_restart
           ConfigManager.sampleDefaultModelId ConfigManager.sampleModelDimension
           ConfigManager.demoConfig (Some "custom-embed") ConfigManager.newManager).
  - reflexivity.
  - reflexivity.
  - left. split; [simpl; discriminate|]. intros (d & _ & Hd). discriminate Hd.
Defined.

(** The feature was disabled and still is, while the provider changed. *)
Lemma no_restart_while_disabled_or_unconfigured_witness :
  ConfigManager.doesConfigChangeRequireRestart
    ConfigManager.sampleDefaultModelId ConfigManager.sampleModelDimension
    (ConfigManager._loadAndSetConfiguration
       (ConfigManager.CodeIndexConfig.withEnabled ConfigManager.demoConfig false)
       ConfigManager.newManager)
    (Some (ConfigManager.previousConfigSnapshot ConfigManager.newManager))
  = false.
Proof.
  apply no_restart_while_disabled_or_unconfigured.
  left. split; reflexivity.
Defined.

Section ChangeFacts.

Import ConfigManager.

Variable getDefaultModelId : EmbedderProvider → string.
Variable getModelDimension : EmbedderProvider → string → option Z.

Local Abbreviation restartNeeded :=
  (doesConfigChangeRequireRestart getDefaultModelId getModelDimension).
Local Abbreviation load :=
  (loadConfiguration getDefaultModelId getModelDimension).

Lemma strict_ne_true_iff {A} `{EqDecision A} (a b : A) :
  strict_ne a b = true ↔ a ≠ b.
Proof. unfold strict_ne. apply bool_decide_eq_true. Qed.

Lemma if_true_iff (b : bool) : (if b then true else false) = true ↔ b = true.
Proof. by destruct b. Qed.

(** X7. On an enabled and configured manager, loading the same
    configuration with another vector store asks for a restart exactly when
    the URL or the key differ in effect (an absent URL is the default URL
    and an absent key the empty key), or the configuration is
    openai-compatible with the dimension NaN. *)
Theorem vector_store_change_requires_restart (config : CodeIndexConfig.t)
    (url key : option string) (this : CodeIndexConfigManager) :
  let loaded := _loadAndSetConfiguration config this in
  CodeIndexConfig.isEnabled config = true →
  isConfigured loaded = true →
  requiresRestart (snd (load (CodeIndexConfig.withQdrant config url key) loaded))
    = true
  ↔ default "http://localhost:6333" (CodeIndexConfig.qdrantUrl config)
      ≠ default "http://localhost:6333" url
    ∨ default "" (CodeIndexConfig.qdrantApiKey config) ≠ default "" key
    ∨ hasNaNDimension loaded = true.
Proof.
  intros loaded Hen Hconf. subst loaded.
  rewrite hasNaNDimension_loaded.
  destruct config as [en e u k]. simpl in Hen. subst en.
  unfold loadConfiguration, doesConfigChangeRequireRestart, credentialsChanged,
    _hasVectorDimensionChanged, _loadAndSetConfiguration,
    currentModelDimension in *.
  destruct e as [mo ak|mo bu|mo bu ak d]; simpl in *; rewrite Hconf; simpl.
  all: rewrite ?strict_ne_refl, ?js_strict_ne_self,
         ?bool_decide_eq_true_2 by done; simpl.
  all: rewrite ?strict_ne_refl, ?andb_false_r; simpl.
  all: try destruct (bool_decide (d = JsNaN)); simpl.
  all: rewrite ?if_true_iff, ?orb_true_iff, ?strict_ne_true_iff.
  all: first [by (split; auto)
             |split; [intros [?|?]; by auto|intros [?|[?|?]]; by auto]].
Qed.

(** X8. On an enabled and configured manager, loading the same
    configuration with other credentials for the same provider and model
    asks for a restart exactly when the credentials of that provider differ
    in effect: the key for openai, the base URL for ollama, base URL, key or
    dimension for openai-compatible. The dimensions are compared by [!==]:
    NaN differs from every dimension, itself included, and [null] differs
    from [undefined]. *)
Theorem credentials_change_requires_restart (config : CodeIndexConfig.t)
    (e : EmbedderConfig.t) (this : CodeIndexConfigManager) :
  let loaded := _loadAndSetConfiguration config this in
  CodeIndexConfig.isEnabled config = true →
  isConfigured loaded = true →
  EmbedderConfig.provider e
    = EmbedderConfig.provider (CodeIndexConfig.embedder config) →
  EmbedderConfig.model e = EmbedderConfig.model (CodeIndexConfig.embedder config) →
  requiresRestart (snd (load (CodeIndexConfig.withEmbedder config e) loaded))
    = true
  ↔ let '(u, k, d) :=
        EmbedderConfig.credentials (CodeIndexConfig.embedder config) in
    let '(u', k', d') := EmbedderConfig.credentials e in
    u ≠ u' ∨ k ≠ k' ∨ js_strict_ne d d' = true.
Proof.
  intros loaded Hen Hconf Hp Hm. subst loaded.
  destruct config as [en e0 u k]. simpl in Hen. subst en.
  unfold loadConfiguration, doesConfigChangeRequireRestart, credentialsChanged,
    _hasVectorDimensionChanged, _loadAndSetConfiguration in *.
  destruct e0 as [mo ak|mo bu|mo bu ak d], e as [mo' ak'|mo' bu'|mo' bu' ak' d'];
    simpl in *; try discriminate; subst mo'; rewrite Hconf; simpl.
  all: rewrite ?strict_ne_refl, ?bool_decide_eq_true_2 by done; simpl.
  all: rewrite ?strict_ne_refl, ?orb_false_r; simpl.
  - rewrite ?if_true_iff, strict_ne_true_iff.
    split; [by left|]. by intros [?|[?|?]].
  - rewrite ?if_true_iff, strict_ne_true_iff.
    split; [by left|]. by intros [?|[?|?]].
  - unfold currentModelDimension; simpl.
    rewrite ?if_true_iff, !orb_true_iff, !strict_ne_true_iff. tauto.
Qed.

End ChangeFacts.

(** The demo configuration is moved to another vector store. *)
Lemma vector_store_change_requires_restart_witness :
  ConfigManager.requiresRestart
    (snd (ConfigManager.loadConfiguration
            ConfigManager.sampleDefaultModelId ConfigManager.sampleModelDimension
            (ConfigManager.CodeIndexConfig.withQdrant ConfigManager.demoConfig
               (Some "http://qdrant:6333") None)
            (ConfigManager._loadAndSetConfiguration ConfigManager.demoConfig
               ConfigManager.newManager)))
  = true.
Proof.
  apply (vector_store_change_requires_restart
           ConfigManager.sampleDefaultModelId ConfigManager.sampleModelDimension
           ConfigManager.demoConfig (Some "http://qdrant:6333") None
           ConfigManager.newManager).
  - reflexivity.
  - reflexivity.
  - left. simpl. discriminate.
Defined.

(** With the dimension NaN, the configuration that is already loaded asks
    for a restart each time it is loaded; with the dimension 1024 it does
    not. *)
Example reload_with_nan_dimension :
  ConfigManager.requiresRestart
    (snd (ConfigManager.loadConfiguration
            ConfigManager.sampleDefaultModelId ConfigManager.sampleModelDimension
            ConfigManager.nanDimensionConfig
            (ConfigManager._loadAndSetConfiguration
               ConfigManager.nanDimensionConfig ConfigManager.newManager)))
  = true
  ∧ ConfigManager.requiresRestart
      (snd (ConfigManager.loadConfiguration
              ConfigManager.sampleDefaultModelId ConfigManager.sampleModelDimension
              (ConfigManager.compatibleConfig (JsNum (Qc_of_Z 1024)))
              (ConfigManager._loadAndSetConfiguration
                 (ConfigManager.compatibleConfig (JsNum (Qc_of_Z 1024)))
                 ConfigManager.newManager)))
    = false.
Proof. split; reflexivity. Qed.

(** A dimension that was [undefined] and is [null] counts as a change. *)
Example dimension_null_against_undefined :
  ConfigManager.requiresRestart
    (snd (ConfigManager.loadConfiguration
            ConfigManager.sampleDefaultModelId ConfigManager.sampleModelDimension
            (ConfigManager.compatibleConfig JsNull)
            (ConfigManager._loadAndSetConfiguration
               (ConfigManager.compatibleConfig JsUndefined)
               ConfigManager.newManager)))
  = true.
Proof. reflexivity. Qed.

(** Writing the default URL out changes nothing. *)
Example default_vector_store_url_written_out :
  ConfigManager.requiresRestart
    (snd (ConfigManager.loadConfiguration
            ConfigManager.sampleDefaultModelId ConfigManager.sampleModelDimension
            ConfigManager.demoConfig
            (ConfigManager._loadAndSetConfiguration
               (ConfigManager.CodeIndexConfig.withQdrant ConfigManager.demoConfig
                  None None)
               ConfigManager.newManager)))
  = false.
Proof. reflexivity. Qed.

(** The dimension of the openai-compatible endpoint goes from 1024 to 1536. *)
Lemma credentials_change_requires_restart_witness :
  ConfigManager.requiresRestart
    (snd (ConfigManager.loadConfiguration
            ConfigManager.sampleDefaultModelId ConfigManager.sampleModelDimension
            (ConfigManager.CodeIndexConfig.withEmbedder
               (ConfigManager.compatibleConfig (JsNum (Qc_of_Z 1024)))
               (ConfigManager.EmbedderConfig.OpenAiCompatible (Some "custom-embed")
                  "http://localhost:8080/v1" "secret" (JsNum (Qc_of_Z 1536))))
            (ConfigManager._loadAndSetConfiguration
               (ConfigManager.compatibleConfig (JsNum (Qc_of_Z 1024)))
               ConfigManager.newManager)))
  = true.
Proof.
  apply (credentials_change_requires_restart
           ConfigManager.sampleDefaultModelId ConfigManager.sampleModelDimension
           (ConfigManager.compatibleConfig (JsNum (Qc_of_Z 1024)))
           (ConfigManager.EmbedderConfig.OpenAiCompatible (Some "custom-embed")
              "http://localhost:8080/v1" "secret" (JsNum (Qc_of_Z 1536)))
           ConfigManager.newManager).
  - reflexivity.
  - reflexivity.
  - reflexivity.
  - reflexivity.
  - right. right. reflexivity.
Defined.

(** The ollama server of the demo configuration moves to another port. *)
Example ollama_base_url_changed :
  ConfigManager.requiresRestart
    (snd (ConfigManager.loadConfiguration
            ConfigManager.sampleDefaultModelId ConfigManager.sampleModelDimension
            (ConfigManager.CodeIndexConfig.withEmbedder ConfigManager.demoConfig
               (ConfigManager.EmbedderConfig.Ollama (Some "nomic-embed-text")
                  (Some "http://localhost:11435")))
            (ConfigManager._loadAndSetConfiguration ConfigManager.demoConfig
               ConfigManager.newManager)))
  = true.
Proof. reflexivity. Qed.

(** * Further properties of the tag-capture processor *)

Section ProcessorFacts.

Import TreeSitter.

Variable minLines : Z.
Variable lines : list string.

Lemma processCaptures_of_run (captures : list Capture) (language : string) :
  processCaptures minLines captures lines language
  = match runCaptures minLines captures lines language with
    | Normal st =>
        Normal (match emitted st with
                | [] => None
                | _ :: _ => Some (render (emitted st))
                end)
    | Throw => Throw
    end.
Proof.
  unfold processCaptures. destruct captures as [|c cs]; [done|].
  simpl bool_decide. cbv iota.
  destruct (runCaptures minLines (c :: cs) lines language) as [st|] eqn:Hrun;
    [|done].
  simpl.
  destruct (runCaptures_invariants _ _ _ _ _ Hrun) as (_ & _ & -> & _).
  destruct (emitted st) as [|d ds] eqn:Hem; [done|].
  rewrite bool_decide_eq_true_2; [done|]. by apply render_not_empty.
Qed.

(** X9. [processCaptures] throws when its loop throws; otherwise it returns
    [null] when no record was emitted and the listing of the emitted records
    when there is one. It never returns the empty string. *)
Theorem processCaptures_outcome (captures : list Capture) (language : string) :
  processCaptures minLines captures lines language
  = match runCaptures minLines captures lines language with
    | Normal st =>
        Normal (match emitted st with
                | [] => None
                | _ :: _ => Some (render (emitted st))
                end)
    | Throw => Throw
    end
  ∧ processCaptures minLines captures lines language ≠ Normal (Some "").
Proof.
  split; [apply processCaptures_of_run|]. rewrite processCaptures_of_run.
  destruct (runCaptures minLines captures lines language) as [st|]; [|done].
  destruct (emitted st) as [|d ds]; [done|].
  intros [= Hr]. by apply (render_not_empty (d :: ds)).
Qed.

Lemma processCapture_in_file (language : string) (st : ProcState) (c : Capture) :
  startsInFile lines c →
  ∃ st', processCapture minLines lines language st c = Normal st'.
Proof.
  intros Hc. unfold processCapture.
  destruct (_ && _); [eauto|].
  destruct (definitionNode c) as [dn|] eqn:Hdn; [|eauto].
  destruct (_ <? _); [eauto|]. case_bool_decide; [eauto|].
  destruct (Hc dn Hdn) as [line ->].
  destruct (includes (name c) "name.definition").
  - destruct (truthy _); eauto.
  - destruct (isNotHtmlElement _ _); eauto.
Qed.

Lemma forEachCapture_in_file (language : string) (cs : list Capture)
    (st : ProcState) :
  Forall (startsInFile lines) cs →
  ∃ st', forEachCapture minLines lines language st cs = Normal st'.
Proof.
  intros Hcs. revert st. induction Hcs as [|c cs Hc _ IH]; intros st; simpl.
  - eauto.
  - destruct (processCapture_in_file language st c Hc) as [st1 ->]. simpl.
    apply IH.
Qed.

(** X10. When the definition node of every capture starts on a row of the
    file, [processCaptures] does not throw: it returns [null] or a listing.
    (A capture that gets as far as [lines[startLine].trim()] with a start
    row outside the file makes it throw.) *)
Theorem processCaptures_in_file_returns (captures : list Capture)
    (language : string) :
  Forall (startsInFile lines) captures →
  ∃ r, processCaptures minLines captures lines language = Normal r.
Proof.
  intros Hcs.
  destruct (forEachCapture_in_file language (sortCaptures captures) initialState)
    as [st Hst]; [by rewrite sortCaptures_perm|].
  rewrite processCaptures_of_run. unfold runCaptures. rewrite Hst. eauto.
Qed.

Lemma insertCapture_skip (c d : Capture) (cs : list Capture) :
  insertCapture c (d :: cs)
  = if captureRow d <? captureRow c then d :: insertCapture c cs else c :: d :: cs.
Proof. done. Qed.

Lemma insertCapture_le (c : Capture) (cs : list Capture) :
  Forall (rowLe c) cs → insertCapture c cs = c :: cs.
Proof.
  destruct 1 as [|d cs Hd _]; [done|]. rewrite insertCapture_skip.
  by destruct (Z.ltb_spec (captureRow d) (captureRow c));
    [unfold rowLe in Hd; lia|].
Qed.

Lemma insertCapture_filter (P : Capture → Prop) `{∀ c, Decision (P c)}
    (c : Capture) (cs : list Capture) :
  StronglySorted rowLe cs →
  filter P (insertCapture c cs)
  = if decide (P c) then insertCapture c (filter P cs) else filter P cs.
Proof.
  induction 1 as [|d cs Hcs IH Hd].
  - cbn [insertCapture]. rewrite filter_cons, filter_nil.
    by destruct (decide (P c)).
  - rewrite insertCapture_skip.
    destruct (Z.ltb_spec (captureRow d) (captureRow c)) as [Hlt|Hge].
    + rewrite !filter_cons, IH.
      destruct (decide (P c)), (decide (P d)); try done.
      rewrite insertCapture_skip.
      by destruct (Z.ltb_spec (captureRow d) (captureRow c)); [|lia].
    + rewrite (filter_cons P c (d :: cs)).
      destruct (decide (P c)); [|done].
      rewrite insertCapture_le; [done|].
      apply Forall_forall. intros e [_ He]%list_elem_of_filter.
      apply elem_of_cons in He as [->|He]; [done|].
      rewrite Forall_forall in Hd. specialize (Hd e He).
      unfold rowLe in *. lia.
Qed.

(** Sorting commutes with leaving captures out. *)
Lemma sortCaptures_filter (P : Capture → Prop) `{∀ c, Decision (P c)}
    (cs : list Capture) :
  sortCaptures (filter P cs) = filter P (sortCaptures cs).
Proof.
  induction cs as [|c cs IH]; simpl; [done|].
  rewrite filter_cons, insertCapture_filter by apply sortCaptures_sorted.
  destruct (decide (P c)); simpl; by rewrite IH.
Qed.

Lemma processCapture_irrelevant (language : string) (st : ProcState)
    (c : Capture) :
  relevant c ≠ true →
  processCapture minLines lines language st c = Normal st.
Proof.
  unfold relevant, processCapture. intros Hc.
  destruct (includes (name c) "definition"), (includes (name c) "name"); done.
Qed.

Lemma forEachCapture_filter_relevant (language : string) (cs : list Capture)
    (st : ProcState) :
  forEachCapture minLines lines language st (filter (λ c, relevant c = true) cs)
  = forEachCapture minLines lines language st cs.
Proof.
  revert st. induction cs as [|c cs IH]; intros st; [done|].
  rewrite filter_cons. destruct (decide (relevant c = true)) as [Hc|Hc]; simpl.
  - destruct (processCapture minLines lines language st c); simpl; [apply IH|done].
  - rewrite processCapture_irrelevant by done. simpl. apply IH.
Qed.

(** X11. Captures whose name marks neither a definition nor a name play no
    part: leaving them out of the input gives the same result, error
    included. *)
Theorem irrelevant_captures_ignored (captures : list Capture)
    (language : string) :
  processCaptures minLines (filter (λ c, relevant c = true) captures)
    lines language
  = processCaptures minLines captures lines language.
Proof.
  rewrite !processCaptures_of_run. unfold runCaptures.
  by rewrite sortCaptures_filter, forEachCapture_filter_relevant.
Qed.

Lemma sortCaptures_of_sorted (cs : list Capture) :
  StronglySorted rowLe cs → sortCaptures cs = cs.
Proof.
  induction 1 as [|c cs Hcs IH Hc]; simpl; [done|]. rewrite IH.
  destruct Hc as [|d cs' Hd _]; [done|]. simpl.
  by destruct (Z.ltb_spec (captureRow d) (captureRow c)); [unfold rowLe in Hd; lia|].
Qed.

(** X12. The sort is in place: after a call the array of the caller is
    sorted. Processing a sorted array again, or sorting before the call,
    gives the same result. *)
Theorem processCaptures_of_sorted_input (captures : list Capture)
    (language : string) :
  sortCaptures (sortCaptures captures) = sortCaptures captures
  ∧ processCaptures minLines (sortCaptures captures) lines language
    = processCaptures minLines captures lines language.
Proof.
  assert (sortCaptures (sortCaptures captures) = sortCaptures captures) as Hidem
    by apply sortCaptures_of_sorted, sortCaptures_sorted.
  split; [done|].
  rewrite !processCaptures_of_run. unfold runCaptures. by rewrite Hidem.
Qed.

(** X13. The verdict of the HTML filter on a line is the verdict on the
    trimmed line: white space around the line plays no part, for any
    language, and outside JSX and TSX the verdict is always true. *)
Theorem isNotHtmlElement_trim (language line : string) :
  isNotHtmlElement language (trim line) = isNotHtmlElement language line
  ∧ isNotHtmlElement language line
    = negb (needsHtmlFiltering language && HTML_ELEMENTS_test line).
Proof.
  unfold isNotHtmlElement. rewrite !HTML_ELEMENTS_test_trim.
  by destruct (needsHtmlFiltering language).
Qed.

Lemma includes_cons_false (a : ascii) (s sub : string) :
  includes (String a s) sub = false → includes s sub = false.
Proof. simpl. by destruct (stripPrefix sub (String a s)). Qed.

Lemma HTML_ELEMENTS_test_cons (a : ascii) (s : string) :
  HTML_ELEMENTS_test (String a s)
  = matchElement (String a s) || negb (isUpper a) && HTML_ELEMENTS_test s.
Proof. done. Qed.

(** X14. A line that has a capital letter before its first [<] is never
    taken for an HTML element: the pattern may only skip characters that
    are not capitals. *)
Theorem capital_before_element_never_html (pre rest : string) (c : ascii) :
  includes pre "<" = false →
  isUpper c = true →
  HTML_ELEMENTS_test (pre +:+ String c rest) = false.
Proof.
  intros Hpre Hc. induction pre as [|a pre IH].
  - change ("" +:+ String c rest) with (String c rest).
    rewrite HTML_ELEMENTS_test_cons, Hc, matchElement_not_lt; [done|].
    by intros ->.
  - change (String a pre +:+ String c rest)
      with (String a (pre +:+ String c rest)).
    rewrite HTML_ELEMENTS_test_cons, IH, andb_false_r, matchElement_not_lt;
      [done| |by eapply includes_cons_false].
    intros ->. by vm_compute in Hpre.
Qed.

End ProcessorFacts.

(** The stray capture of the sample would make the loop throw; the captures
    of the sample file all start inside it. *)
Lemma processCaptures_in_file_returns_witness :
  ∃ r, TreeSitter.processCaptures TreeSitter.DEFAULT_MIN_COMPONENT_LINES_VALUE
         TreeSitter.minLinesCaptures TreeSitter.minLinesSource "ts"
       = TreeSitter.Normal r.
Proof.
  apply processCaptures_in_file_returns.
  repeat constructor; intros dn [= <-]; by eexists.
Defined.

(** A start row beyond the last line: the loop throws. *)
Example stray_capture_throws :
  TreeSitter.processCaptures TreeSitter.DEFAULT_MIN_COMPONENT_LINES_VALUE
    (TreeSitter.minLinesCaptures ++ [TreeSitter.strayCapture])
    TreeSitter.minLinesSource "ts"
  = TreeSitter.Throw.
Proof. by vm_compute. Qed.

(** [const Button = () => (]: the capital comes before any [<]. *)
Lemma capital_before_element_never_html_witness :
  TreeSitter.HTML_ELEMENTS_test ("const " +:+ String "B" "utton = () => (<div>")
  = false.
Proof.
  apply capital_before_element_never_html; reflexivity.
Defined.

(** * Where the emitted ranges come from *)

Section ProvenanceFacts.

Import TreeSitter.

Variable minLines : Z.
Variable lines : list string.

Lemma processCapture_emits_from (language : string) (st st' : ProcState)
    (c : Capture) :
  processCapture minLines lines language st c = Normal st' →
  ∃ news, emitted st' = emitted st ++ news
          ∧ (length news ≤ 2)%nat
          ∧ Forall (λ d, rangeFrom c (rangeOf d)) news.
Proof.
  unfold processCapture.
  destruct (negb (includes (name c) "definition")
            && negb (includes (name c) "name")) eqn:Hrel;
    [intros [= <-]; exists []; by rewrite app_nil_r; split_and!; [|simpl; lia|]|].
  assert (relevant c = true) as Hrelevant.
  { unfold relevant.
    by destruct (includes (name c) "definition"), (includes (name c) "name"). }
  destruct (definitionNode c) as [dn|] eqn:Hdn;
    [|intros [= <-]; exists []; by rewrite app_nil_r; split_and!; [|simpl; lia|]].
  destruct (_ <? _);
    [intros [= <-]; exists []; by rewrite app_nil_r; split_and!; [|simpl; lia|]|].
  case_bool_decide;
    [intros [= <-]; exists []; by rewrite app_nil_r; split_and!; [|simpl; lia|]|].
  destruct (lineAt lines (row (startPosition dn))) as [line|]; [|done].
  assert (rangeFrom c (row (startPosition dn), row (endPosition dn))) as Hprimary
    by (left; eauto).
  destruct (includes (name c) "name.definition").
  { destruct (truthy _); intros [= <-];
      [|exists []; by rewrite app_nil_r; split_and!; [|simpl; lia|]].
    eexists [_]. split_and!; [done|simpl; lia|]. constructor; [exact Hprimary|constructor]. }
  destruct (isNotHtmlElement _ _); intros [= <-];
    [|exists []; by rewrite app_nil_r; split_and!; [|simpl; lia|]].
  unfold emitContext.
  destruct (parent (node c)) as [p|] eqn:Hp;
    [|eexists [_]; split_and!; [done|simpl; lia|constructor; [exact Hprimary|constructor]]].
  destruct (lastChild p) as [lc|] eqn:Hlc;
    [|eexists [_]; split_and!; [done|simpl; lia|constructor; [exact Hprimary|constructor]]].
  destruct (_ <=? _);
    [|eexists [_]; split_and!; [done|simpl; lia|constructor; [exact Hprimary|constructor]]].
  case_bool_decide;
    [eexists [_]; split_and!; [done|simpl; lia|constructor; [exact Hprimary|constructor]]|].
  eexists [_; _]. simpl. rewrite <-app_assoc. split_and!; [done|lia|].
  constructor; [exact Hprimary|]. constructor; [|constructor]. right. eauto.
Qed.

Lemma forEachCapture_emits_from (language : string) (cs : list Capture)
    (st st' : ProcState) :
  forEachCapture minLines lines language st cs = Normal st' →
  ∃ news, emitted st' = emitted st ++ news
          ∧ (length news ≤ 2 * length cs)%nat
          ∧ Forall (λ d, ∃ c, c ∈ cs ∧ rangeFrom c (rangeOf d)) news.
Proof.
  revert st. induction cs as [|c cs IH]; intros st; simpl.
  { intros [= <-]. exists []. by rewrite app_nil_r. }
  destruct (processCapture minLines lines language st c) as [st1|] eqn:Hstep;
    simpl; [|done].
  intros Hrest.
  destruct (processCapture_emits_from _ _ _ _ Hstep) as (n1 & Hn & Hl1 & Hn1).
  destruct (IH _ Hrest) as (n2 & -> & Hl2 & Hn2).
  exists (n1 ++ n2). rewrite Hn, <-app_assoc. split_and!; [done|..].
  - rewrite length_app. lia.
  - apply Forall_app. split.
    + eapply Forall_impl; [done|]. intros d Hd. exists c. split; [left|done].
    + eapply Forall_impl; [done|]. intros d (c' & Hc' & Hd).
      exists c'. split; [by right|done].
Qed.

(** X15. The processor invents no range: every emitted record has the range
    of the definition node of one of the captures, or the range from the
    start of the parent of a captured node to the end of that parent's last
    child. Each capture gives at most two records. *)
Theorem emitted_ranges_come_from_captures (captures : list Capture)
    (language : string) (st : ProcState) :
  runCaptures minLines captures lines language = Normal st →
  Forall (λ d, ∃ c, c ∈ captures ∧ rangeFrom c (rangeOf d)) (emitted st)
  ∧ (length (emitted st) ≤ 2 * length captures)%nat.
Proof.
  intros Hrun.
  destruct (forEachCapture_emits_from _ _ _ _ Hrun) as (news & -> & Hlen & Hfrom).
  simpl. split.
  - eapply Forall_impl; [done|]. intros d (c & Hc & Hd). exists c.
    split; [|done]. by rewrite <-sortCaptures_perm.
  - by rewrite <-(Permutation_length (sortCaptures_perm captures)).
Qed.

End ProvenanceFacts.

(** The two records of the sample file come from its third capture. *)
Lemma emitted_ranges_come_from_captures_witness :
  ∃ st,
    TreeSitter.runCaptures TreeSitter.DEFAULT_MIN_COMPONENT_LINES_VALUE
      TreeSitter.minLinesCaptures TreeSitter.minLinesSource "ts"
      = TreeSitter.Normal st
    ∧ (length (TreeSitter.emitted st) ≤ 2 * length TreeSitter.minLinesCaptures)%nat.
Proof.
  eexists. split; [vm_compute; reflexivity|].
  eapply (emitted_ranges_come_from_captures
            TreeSitter.DEFAULT_MIN_COMPONENT_LINES_VALUE
            TreeSitter.minLinesSource TreeSitter.minLinesCaptures "ts").
  vm_compute; reflexivity.
Defined.

(** * Further properties of the file listing *)

Section ListingFacts.

Import TreeSitter.

Variable parseMarkdown : string → Outcome (list Capture).
Variable loadRequiredLanguageParsers : list string → Outcome LanguageParser.
Variable minLines : Z.

Local Abbreviation definitionsForFile :=
  (parseSourceCodeDefinitionsForFile parseMarkdown loadRequiredLanguageParsers
     minLines).
Local Abbreviation definitionsTopLevel :=
  (parseSourceCodeForDefinitionsTopLevel parseMarkdown
     loadRequiredLanguageParsers minLines).

Lemma parseFile_Throw_inv (filePath : string)
    (languageParsers : LanguageParser) (deps : TreeSitterDependencies) :
  parseFile minLines filePath languageParsers deps = Throw →
  shouldIgnore deps filePath = false ∧ readFile deps filePath = None.
Proof.
  unfold parseFile.
  destruct (shouldIgnore deps filePath); [done|].
  destruct (readFile deps filePath) as [content|]; [|done].
  destruct (languageParsers _) as [pq|]; [|done].
  unfold tryCatch. by destruct (_ ≫= _).
Qed.

(** X16. [parseFile] rejects in one case only: the file is not ignored and
    cannot be read. An ignored file is not read, and whatever the parser,
    the query or the processing of the captures throws is caught and turned
    into [null]. *)
Theorem parseFile_rejects_iff (filePath : string)
    (languageParsers : LanguageParser) (deps : TreeSitterDependencies) :
  parseFile minLines filePath languageParsers deps = Throw
  ↔ shouldIgnore deps filePath = false ∧ readFile deps filePath = None.
Proof.
  split; [apply parseFile_Throw_inv|].
  intros [Hign Hread]. unfold parseFile. by rewrite Hign, Hread.
Qed.

(** X17. A file with a supported extension for which no parser and query
    are loaded is not skipped: the answer is the line [# basename] followed
    by [Unsupported file type: ] and the path. *)
Theorem missing_parser_message (filePath fileContent : string)
    (languageParsers : LanguageParser) (deps : TreeSitterDependencies) :
  fileExists deps filePath = true →
  toLowerCase (extname deps filePath) ∈ extensions →
  isMarkdownExt (toLowerCase (extname deps filePath)) = false →
  loadRequiredLanguageParsers [filePath] = Normal languageParsers →
  shouldIgnore deps filePath = false →
  readFile deps filePath = Some fileContent →
  languageParsers (slice1 (toLowerCase (extname deps filePath))) = None →
  definitionsForFile filePath deps
  = Normal (Some ("# " +:+ basename deps filePath +:+ newline
                  +:+ "Unsupported file type: " +:+ filePath)).
Proof.
  intros Hex Hext Hmd Hload Hign Hread Hlp.
  unfold parseSourceCodeDefinitionsForFile.
  rewrite Hex, (bool_decide_eq_true_2 _ Hext), Hmd, Hload. simpl.
  unfold parseFile. by rewrite Hign, Hread, Hlp.
Qed.

(** X18. The error of a tree-sitter file is swallowed, that of a markdown
    file is not: when parser, query or processing throw on a readable file,
    [parseSourceCodeDefinitionsForFile] answers [undefined]; when the heading
    parser or the processing throw on a markdown file, it rejects. *)
Theorem errors_by_route (filePath fileContent : string)
    (deps : TreeSitterDependencies) :
  fileExists deps filePath = true →
  toLowerCase (extname deps filePath) ∈ extensions →
  shouldIgnore deps filePath = false →
  readFile deps filePath = Some fileContent →
  (∀ languageParsers parserAndQuery,
     isMarkdownExt (toLowerCase (extname deps filePath)) = false →
     loadRequiredLanguageParsers [filePath] = Normal languageParsers →
     languageParsers (slice1 (toLowerCase (extname deps filePath)))
       = Some parserAndQuery →
     (captures ← parserAndQuery fileContent;
      processCaptures minLines captures (splitLines fileContent)
        (slice1 (toLowerCase (extname deps filePath)))) = Throw →
     definitionsForFile filePath deps = Normal None)
  ∧ (isMarkdownExt (toLowerCase (extname deps filePath)) = true →
     (captures ← parseMarkdown fileContent;
      processCaptures minLines captures (splitLines fileContent) "markdown")
       = Throw →
     definitionsForFile filePath deps = Throw).
Proof.
  intros Hex Hext Hign Hread. split.
  - intros lp pq Hmd Hload Hlp Hthrow.
    unfold parseSourceCodeDefinitionsForFile.
    rewrite Hex, (bool_decide_eq_true_2 _ Hext), Hmd, Hload. simpl.
    unfold parseFile. rewrite Hign, Hread, Hlp.
    cbv zeta. by rewrite Hthrow.
  - intros Hmd Hthrow.
    unfold parseSourceCodeDefinitionsForFile.
    rewrite Hex, (bool_decide_eq_true_2 _ Hext), Hmd, Hign. simpl.
    unfold markdownDefinitionsOf. rewrite Hread.
    cbv zeta. by rewrite Hthrow.
Qed.

Lemma elem_of_take_in {A} (x : A) (n : nat) (l : list A) :
  x ∈ take n l → x ∈ l.
Proof. intros (i & Hi & _)%elem_of_take. by eapply list_elem_of_lookup_2. Qed.

Lemma NoDup_take_of {A} (n : nat) (l : list A) : NoDup l → NoDup (take n l).
Proof.
  intros Hnd. rewrite <-(take_drop n l) in Hnd.
  by apply NoDup_app in Hnd as [? _].
Qed.

(** X19. [separateFiles] splits the listing: every file is to parse or
    remaining and none is both; the files to parse are at most 50 and have
    an extension of the list; and when no path is listed twice, the two
    lists together are a rearrangement of the listing. *)
Theorem separateFiles_splits (allFiles : list string)
    (extnameOf : string → string) :
  let filesToParse := fst (separateFiles allFiles extnameOf) in
  let remainingFiles := snd (separateFiles allFiles extnameOf) in
  (∀ file, file ∈ allFiles ↔ file ∈ filesToParse ∨ file ∈ remainingFiles)
  ∧ (∀ file, file ∈ filesToParse → file ∉ remainingFiles)
  ∧ (∀ file, file ∈ filesToParse → extnameOf file ∈ extensions)
  ∧ (NoDup allFiles → filesToParse ++ remainingFiles ≡ₚ allFiles).
Proof.
  intros filesToParse remainingFiles.
  assert (∀ file, file ∈ filesToParse → file ∈ allFiles ∧ extnameOf file ∈ extensions)
    as Hsel.
  { intros file Hin%elem_of_take_in. by apply list_elem_of_filter in Hin as [? ?]. }
  assert (∀ file, file ∈ remainingFiles ↔ (file ∉ filesToParse) ∧ (file ∈ allFiles))
    as Hrem.
  { intros file. unfold remainingFiles, separateFiles; simpl.
    by rewrite list_elem_of_filter. }
  split_and!.
  - intros file. rewrite Hrem. split.
    + intros Hin. destruct (decide (file ∈ filesToParse)); auto.
    + intros [Hin|[_ Hin]]; [by apply Hsel|done].
  - intros file Hin [Hnot _]%Hrem. done.
  - intros file Hin. by apply Hsel.
  - intros Hnd. apply NoDup_Permutation.
    + apply NoDup_app. split_and!.
      * unfold filesToParse, separateFiles; simpl.
        apply NoDup_take_of, NoDup_filter, Hnd.
      * intros file Hin [Hnot _]%Hrem. done.
      * unfold remainingFiles, separateFiles; simpl. by apply NoDup_filter.
    + done.
    + intros file. rewrite elem_of_app, Hrem. split.
      * intros [Hin|[_ Hin]]; [by apply Hsel|done].
      * intros Hin. destruct (decide (file ∈ filesToParse)); auto.
Qed.

(** X20. The top-level listing is never the empty string: when no file
    gives a definition the answer is the sentence
    [No source code definitions found.]. *)
Theorem top_level_never_empty (dirPath : string)
    (deps : TreeSitterDependencies) :
  definitionsTopLevel dirPath deps ≠ Normal "".
Proof.
  unfold parseSourceCodeForDefinitionsTopLevel.
  destruct (negb (fileExists deps dirPath)); [done|].
  destruct (loadRequiredLanguageParsers _) as [lp|]; [|done]. simpl.
  destruct (forEachOtherFile _ _ _ _ _ _) as [out|]; [|done]. simpl.
  case_bool_decide; [|done]. by intros [= ->].
Qed.

Lemma parseFile_withReadFile (deps : TreeSitterDependencies)
    (read : string → option string) (filePath : string)
    (languageParsers : LanguageParser) :
  (∀ file, shouldIgnore deps file = false → read file = readFile deps file) →
  parseFile minLines filePath languageParsers (withReadFile deps read)
  = parseFile minLines filePath languageParsers deps.
Proof.
  intros Hread. unfold parseFile.
  change (shouldIgnore (withReadFile deps read)) with (shouldIgnore deps).
  change (readFile (withReadFile deps read)) with read.
  change (extname (withReadFile deps read)) with (extname deps).
  destruct (shouldIgnore deps filePath) eqn:Hign; [done|].
  by rewrite Hread.
Qed.

Lemma forEachOtherFile_withReadFile (deps : TreeSitterDependencies)
    (read : string → option string) (dirPath : string)
    (languageParsers : LanguageParser) (result : string) (files : list string) :
  (∀ file, shouldIgnore deps file = false → read file = readFile deps file) →
  forEachOtherFile minLines (withReadFile deps read) dirPath languageParsers
    result files
  = forEachOtherFile minLines deps dirPath languageParsers result files.
Proof.
  intros Hread. revert result.
  induction files as [|file files IH]; intros result; [done|].
  cbn [forEachOtherFile]. rewrite parseFile_withReadFile by done.
  destruct (parseFile minLines file languageParsers deps); [|done].
  simpl. apply IH.
Qed.

Lemma forEachMarkdownFile_withReadFile (deps : TreeSitterDependencies)
    (read : string → option string) (dirPath result : string)
    (files : list string) :
  (∀ file, shouldIgnore deps file = false → read file = readFile deps file) →
  forEachMarkdownFile parseMarkdown minLines (withReadFile deps read) dirPath
    result files
  = forEachMarkdownFile parseMarkdown minLines deps dirPath result files.
Proof.
  intros Hread. revert result.
  induction files as [|file files IH]; intros result; [done|].
  cbn [forEachMarkdownFile]. rewrite IH.
  change (shouldIgnore (withReadFile deps read)) with (shouldIgnore deps).
  destruct (shouldIgnore deps file) eqn:Hign; [done|].
  unfold markdownDefinitionsOf.
  change (readFile (withReadFile deps read)) with read.
  by rewrite Hread.
Qed.

(** X21. A file that the workspace ignores is never read: the answers for
    a file and for a directory stay the same when the content, or the
    readability, of ignored files changes. *)
Theorem ignored_files_never_read (deps : TreeSitterDependencies)
    (read : string → option string) (path : string) :
  (∀ file, shouldIgnore deps file = false → read file = readFile deps file) →
  definitionsForFile path (withReadFile deps read) = definitionsForFile path deps
  ∧ definitionsTopLevel path (withReadFile deps read)
    = definitionsTopLevel path deps.
Proof.
  intros Hread. split.
  - unfold parseSourceCodeDefinitionsForFile.
    change (shouldIgnore (withReadFile deps read)) with (shouldIgnore deps).
    change (extname (withReadFile deps read)) with (extname deps).
    change (fileExists (withReadFile deps read)) with (fileExists deps).
    change (basename (withReadFile deps read)) with (basename deps).
    destruct (negb (fileExists deps path)); [done|].
    destruct (negb (bool_decide _)); [done|].
    destruct (isMarkdownExt _).
    + destruct (shouldIgnore deps path) eqn:Hign; [done|].
      unfold markdownDefinitionsOf.
      change (readFile (withReadFile deps read)) with read.
      by rewrite Hread.
    + destruct (loadRequiredLanguageParsers [path]) as [lp|]; [|done]. simpl.
      by rewrite parseFile_withReadFile.
  - unfold parseSourceCodeForDefinitionsTopLevel.
    change (shouldIgnore (withReadFile deps read)) with (shouldIgnore deps).
    change (extname (withReadFile deps read)) with (extname deps).
    change (fileExists (withReadFile deps read)) with (fileExists deps).
    change (findFiles (withReadFile deps read)) with (findFiles deps).
    destruct (negb (fileExists deps path)); [done|].
    destruct (loadRequiredLanguageParsers _) as [lp|]; [|done]. simpl.
    by rewrite forEachMarkdownFile_withReadFile, forEachOtherFile_withReadFile.
Qed.

Lemma forEachOtherFile_readable (deps : TreeSitterDependencies)
    (dirPath : string) (languageParsers : LanguageParser) (result : string)
    (files : list string) :
  Forall (λ file, shouldIgnore deps file = false →
                  is_Some (readFile deps file)) files →
  ∃ out, forEachOtherFile minLines deps dirPath languageParsers result files
         = Normal out.
Proof.
  intros Hfiles. revert result.
  induction Hfiles as [|file files Hfile _ IH]; intros result; [by eexists|].
  cbn [forEachOtherFile].
  destruct (parseFile minLines file languageParsers deps) as [d|] eqn:Hparse.
  - simpl. apply IH.
  - apply parseFile_Throw_inv in Hparse as [Hign Hnone].
    destruct (Hfile Hign) as [? ?]. congruence.
Qed.

(** X22. The top-level listing rejects only when the parsers cannot be
    loaded or a file that is parsed with tree-sitter cannot be read: if the
    loader answers and every listed file that is neither ignored nor
    markdown is readable, there is an answer. A markdown file that cannot be
    read or processed is skipped. *)
Theorem top_level_returns (dirPath : string) (deps : TreeSitterDependencies) :
  (∀ files, ∃ languageParsers,
     loadRequiredLanguageParsers files = Normal languageParsers) →
  Forall (λ file, shouldIgnore deps file = false →
                  isMarkdownExt (toLowerCase (extname deps file)) = false →
                  is_Some (readFile deps file)) (findFiles deps) →
  ∃ out, definitionsTopLevel dirPath deps = Normal out.
Proof.
  intros Hload Hfiles. unfold parseSourceCodeForDefinitionsTopLevel.
  destruct (negb (fileExists deps dirPath)); [by eexists|].
  match goal with |- context [loadRequiredLanguageParsers ?l] =>
    destruct (Hload l) as [lp ->] end.
  simpl.
  match goal with |- context [forEachOtherFile _ _ _ _ ?r ?fs] =>
    destruct (forEachOtherFile_readable deps dirPath lp r fs) as [out ->] end.
  { apply Forall_forall. intros file Hin Hign.
    apply list_elem_of_filter in Hin as [Hmd Hin].
    apply list_elem_of_filter in Hin as [_ Hin].
    apply elem_of_take_in, list_elem_of_filter in Hin as [_ Hin].
    rewrite Forall_forall in Hfiles. by apply Hfiles. }
  simpl. by eexists.
Qed.

Lemma forEachOtherFile_prefix (deps : TreeSitterDependencies)
    (dirPath : string) (languageParsers : LanguageParser) (result : string)
    (files : list string) :
  forEachOtherFile minLines deps dirPath languageParsers result files
  = (others ← forEachOtherFile minLines deps dirPath languageParsers "" files;
     Normal (result +:+ others)).
Proof.
  revert result. induction files as [|file files IH]; intros result.
  { simpl. by rewrite string_app_nil_r. }
  cbn [forEachOtherFile].
  destruct (parseFile minLines file languageParsers deps) as [d|]; [|done].
  simpl. rewrite IH. symmetry. rewrite IH. symmetry.
  destruct (forEachOtherFile minLines deps dirPath languageParsers "" files)
    as [others|]; [|done].
  simpl. destruct (truthy d); [|done]. by rewrite !string_app_assoc.
Qed.

(** X23. The top-level listing is the listing of the markdown files
    followed by the listing of the other files, each in the order of the
    directory listing and each computed apart from the other: a markdown
    file comes before every tree-sitter file, wherever it is listed. *)
Theorem top_level_markdown_first (dirPath : string)
    (deps : TreeSitterDependencies) :
  let allowedFilesToParse :=
    filter (λ file, shouldIgnore deps file = false)
      (fst (separateFiles (findFiles deps) (extname deps))) in
  let markdownFiles :=
    filter (λ file, isMarkdownExt (toLowerCase (extname deps file)) = true)
      allowedFilesToParse in
  let otherFiles :=
    filter (λ file, isMarkdownExt (toLowerCase (extname deps file)) = false)
      allowedFilesToParse in
  fileExists deps dirPath = true →
  definitionsTopLevel dirPath deps
  = (languageParsers ← loadRequiredLanguageParsers otherFiles;
     others ← forEachOtherFile minLines deps dirPath languageParsers ""
                otherFiles;
     let result :=
       forEachMarkdownFile parseMarkdown minLines deps dirPath "" markdownFiles
       +:+ others in
     Normal (if bool_decide (result ≠ "") then result
             else "No source code definitions found.")).
Proof.
  intros allowed markdownFiles otherFiles Hex.
  unfold parseSourceCodeForDefinitionsTopLevel. rewrite Hex. simpl negb. cbv iota.
  fold allowed. fold markdownFiles. fold otherFiles.
  destruct (loadRequiredLanguageParsers otherFiles) as [lp|]; [|done].
  simpl. rewrite forEachOtherFile_prefix.
  by destruct (forEachOtherFile minLines deps dirPath lp "" otherFiles).
Qed.

Lemma extensions_lower_case : Forall (λ ext, toLowerCase ext = ext) extensions.
Proof. by apply (bool_decide_unpack _); vm_compute. Qed.

(** X24. Every extension of the list is in lower case, so a file that
    [separateFiles] selects also passes the test of
    [parseSourceCodeDefinitionsForFile], which lower-cases the extension
    first. *)
Theorem selected_files_supported (allFiles : list string)
    (extnameOf : string → string) (file : string) :
  file ∈ fst (separateFiles allFiles extnameOf) →
  toLowerCase (extnameOf file) = extnameOf file
  ∧ toLowerCase (extnameOf file) ∈ extensions.
Proof.
  intros Hin%elem_of_take_in. apply list_elem_of_filter in Hin as [Hext _].
  pose proof extensions_lower_case as Hlow. rewrite Forall_forall in Hlow.
  by rewrite (Hlow _ Hext).
Qed.

End ListingFacts.

(** The TypeScript file of the sample workspace when no parser is loaded. *)
Lemma missing_parser_message_witness :
  TreeSitter.parseSourceCodeDefinitionsForFile
    TreeSitter.sampleParseMarkdown TreeSitter.emptyLoader
    TreeSitter.DEFAULT_MIN_COMPONENT_LINES_VALUE
    "/ws/src/funcs.ts" TreeSitter.sampleDependencies
  = TreeSitter.Normal
      (Some ("# " +:+ "funcs.ts" +:+ TreeSitter.newline
             +:+ "Unsupported file type: " +:+ "/ws/src/funcs.ts")).
Proof.
  apply (missing_parser_message
           TreeSitter.sampleParseMarkdown TreeSitter.emptyLoader
           TreeSitter.DEFAULT_MIN_COMPONENT_LINES_VALUE
           "/ws/src/funcs.ts" (TreeSitter.joinLines TreeSitter.minLinesSource)
           (λ _, None) TreeSitter.sampleDependencies).
  - reflexivity.
  - apply (bool_decide_eq_true_1 _). vm_compute. reflexivity.
  - reflexivity.
  - reflexivity.
  - reflexivity.
  - reflexivity.
  - reflexivity.
Defined.

(** The TypeScript file of the sample workspace with a parser that throws. *)
Lemma errors_by_route_witness :
  TreeSitter.parseSourceCodeDefinitionsForFile
    TreeSitter.sampleParseMarkdown TreeSitter.throwingLoader
    TreeSitter.DEFAULT_MIN_COMPONENT_LINES_VALUE
    "/ws/src/funcs.ts" TreeSitter.sampleDependencies
  = TreeSitter.Normal None.
Proof.
  refine (proj1 (errors_by_route
           TreeSitter.sampleParseMarkdown TreeSitter.throwingLoader
           TreeSitter.DEFAULT_MIN_COMPONENT_LINES_VALUE
           "/ws/src/funcs.ts" (TreeSitter.joinLines TreeSitter.minLinesSource)
           TreeSitter.sampleDependencies _ _ _ _)
           (λ _, Some (λ _, TreeSitter.Throw)) (λ _, TreeSitter.Throw) _ _ _ _).
  - reflexivity.
  - apply (bool_decide_eq_true_1 _). vm_compute. reflexivity.
  - reflexivity.
  - reflexivity.
  - reflexivity.
  - reflexivity.
  - reflexivity.
  - reflexivity.
Defined.

(** The markdown file whose capture starts beyond the last line: asked for
    alone it makes the call reject, in the listing of its directory it is
    skipped. *)
Example markdown_error_by_entry_point :
  TreeSitter.parseSourceCodeDefinitionsForFile
    TreeSitter.strayParseMarkdown TreeSitter.emptyLoader
    TreeSitter.DEFAULT_MIN_COMPONENT_LINES_VALUE
    "/docs/README.md" TreeSitter.docsDependencies
  = TreeSitter.Throw
  ∧ TreeSitter.parseSourceCodeForDefinitionsTopLevel
      TreeSitter.strayParseMarkdown TreeSitter.emptyLoader
      TreeSitter.DEFAULT_MIN_COMPONENT_LINES_VALUE
      "/docs" TreeSitter.docsDependencies
    = TreeSitter.Normal "No source code definitions found.".
Proof. split; by vm_compute. Qed.

(** The ignored TypeScript file may be unreadable: nothing changes. *)
Lemma ignored_files_never_read_witness :
  TreeSitter.parseSourceCodeForDefinitionsTopLevel
    TreeSitter.sampleParseMarkdown TreeSitter.sampleLoadRequiredLanguageParsers
    TreeSitter.DEFAULT_MIN_COMPONENT_LINES_VALUE "/ws"
    (TreeSitter.withReadFile TreeSitter.ignoringDependencies
       TreeSitter.unreadableFuncs)
  = TreeSitter.parseSourceCodeForDefinitionsTopLevel
      TreeSitter.sampleParseMarkdown TreeSitter.sampleLoadRequiredLanguageParsers
      TreeSitter.DEFAULT_MIN_COMPONENT_LINES_VALUE "/ws"
      TreeSitter.ignoringDependencies.
Proof.
  apply ignored_files_never_read.
  intros file Hign. unfold TreeSitter.unreadableFuncs.
  simpl in Hign. by rewrite Hign.
Defined.

(** Every file of the sample workspace can be read. *)
Lemma top_level_returns_witness :
  ∃ out,
    TreeSitter.parseSourceCodeForDefinitionsTopLevel
      TreeSitter.sampleParseMarkdown TreeSitter.sampleLoadRequiredLanguageParsers
      TreeSitter.DEFAULT_MIN_COMPONENT_LINES_VALUE "/ws"
      TreeSitter.workspaceDependencies
    = TreeSitter.Normal out.
Proof.
  apply top_level_returns.
  - intros files. by eexists.
  - repeat constructor; intros _ _; by eexists.
Defined.

(** The listing of the sample workspace: its one supported file. *)
Example sample_workspace_listing :
  TreeSitter.parseSourceCodeForDefinitionsTopLevel
    TreeSitter.sampleParseMarkdown TreeSitter.sampleLoadRequiredLanguageParsers
    TreeSitter.DEFAULT_MIN_COMPONENT_LINES_VALUE "/ws"
    TreeSitter.workspaceDependencies
  = TreeSitter.Normal
      ("# /ws/src/funcs.ts" +:+ TreeSitter.newline
       +:+ TreeSitter.formatLine 4 7 "function kept() {"
       +:+ TreeSitter.formatLine 0 7 "function short() {"
       +:+ TreeSitter.newline).
Proof. by vm_compute. Qed.

(** With its TypeScript file ignored, the sample workspace lists nothing. *)
Example ignoring_workspace_listing :
  TreeSitter.parseSourceCodeForDefinitionsTopLevel
    TreeSitter.sampleParseMarkdown TreeSitter.sampleLoadRequiredLanguageParsers
    TreeSitter.DEFAULT_MIN_COMPONENT_LINES_VALUE "/ws"
    (TreeSitter.withReadFile TreeSitter.ignoringDependencies
       TreeSitter.unreadableFuncs)
  = TreeSitter.Normal "No source code definitions found.".
Proof. by vm_compute. Qed.

(** The TypeScript file is among the files to parse of the sample listing. *)
Lemma selected_files_supported_witness :
  TreeSitter.toLowerCase (TreeSitter.sampleExtname "/ws/src/funcs.ts")
    = TreeSitter.sampleExtname "/ws/src/funcs.ts"
  ∧ TreeSitter.toLowerCase (TreeSitter.sampleExtname "/ws/src/funcs.ts")
      ∈ TreeSitter.extensions.
Proof.
  apply (selected_files_supported
           (TreeSitter.findFiles TreeSitter.sampleDependencies)).
  apply (bool_decide_eq_true_1 _). vm_compute. reflexivity.
Defined.

(** The sample workspace has an existing directory. *)
Lemma top_level_markdown_first_witness :
  TreeSitter.parseSourceCodeForDefinitionsTopLevel
    TreeSitter.sampleParseMarkdown TreeSitter.sampleLoadRequiredLanguageParsers
    TreeSitter.DEFAULT_MIN_COMPONENT_LINES_VALUE "/ws"
    TreeSitter.workspaceDependencies
  = TreeSitter.Normal
      ("" +:+ ("# /ws/src/funcs.ts" +:+ TreeSitter.newline
               +:+ TreeSitter.formatLine 4 7 "function kept() {"
               +:+ TreeSitter.formatLine 0 7 "function short() {"
               +:+ TreeSitter.newline)).
Proof.
  rewrite (top_level_markdown_first
             TreeSitter.sampleParseMarkdown
             TreeSitter.sampleLoadRequiredLanguageParsers
             TreeSitter.DEFAULT_MIN_COMPONENT_LINES_VALUE "/ws"
             TreeSitter.workspaceDependencies); [|reflexivity].
  by vm_compute.
Defined.
